(** * nova.scheduler.driver: the live-migration scheduling core

    A shallow embedding of [nova/scheduler/driver.py] (class [Scheduler])
    and the properties of its liveness test, host enumeration and
    live-migration validation pipeline.

    Python exceptions become an error value threaded through a small
    state-and-error monad.  The state records how many times the wall clock
    has been read and the trace of outward effects (remote procedure calls,
    repository writes, log lines) in the order the driver issues them. *)

From Stdlib Require Import ZArith List String Bool Lia.
Import ListNotations.

Open Scope string_scope.
Open Scope list_scope.
Open Scope Z_scope.

(** ** Exceptions *)

(** The exception classes the driver raises, catches or lets through.
    Only the class is kept; the formatted message is dropped.
    [NotFound], [Invalid] and [NotEmpty] are siblings under
    [nova.exception.Error], [RemoteError] is [nova.rpc.RemoteError],
    [NameError], [IndexError], [NotImplementedError] and [OverflowError] are
    Python's own, and [OtherError] stands for any class a collaborator raises
    that the driver never names (a transport timeout, say). *)
Inductive exn : Type :=
| NotFound
| Invalid
| NotEmpty
| RemoteError
| NameError
| IndexError
| NotImplementedError
| OverflowError
| OtherError.

Definition exn_eqb (a b : exn) : bool :=
  match a, b with
  | NotFound, NotFound | Invalid, Invalid | NotEmpty, NotEmpty
  | RemoteError, RemoteError | NameError, NameError
  | IndexError, IndexError | NotImplementedError, NotImplementedError
  | OverflowError, OverflowError | OtherError, OtherError => true
  | _, _ => false
  end.

Inductive result (A : Type) : Type :=
| OK (a : A)
| Raise (e : exn).

Arguments OK {A} a.
Arguments Raise {A} e.

(** ** Data model *)

(** [nova.compute.power_state] is imported by the driver but defined
    elsewhere; the driver only names [RUNNING] and [PAUSED] and compares
    states for equality. *)
Module power_state.

Inductive t : Type := RUNNING | PAUSED | SUSPENDED | SHUTDOWN.

Definition eqb (a b : t) : bool :=
  match a, b with
  | RUNNING, RUNNING | PAUSED, PAUSED
  | SUSPENDED, SUSPENDED | SHUTDOWN, SHUTDOWN => true
  | _, _ => false
  end.

End power_state.

(** The compute-node row hanging off a compute service
    ([service['compute_service'][0]]). *)
Module ComputeNode.

Record t : Type := mk {
  memory_mb : Z;
  memory_mb_used : Z;
  hypervisor_type : string;
  hypervisor_version : Z;
  cpu_info : string
}.

End ComputeNode.

(** A service row.  Timestamps are UTC instants counted in microseconds,
    the resolution of [datetime]; [updated_at] is [None] until the first
    heartbeat. *)
Module Service.

Record t : Type := mk {
  host : string;
  topic : string;
  created_at : Z;
  updated_at : option Z;
  compute_service : list ComputeNode.t
}.

End Service.

Module Volume.

Record t : Type := mk {
  id : Z;
  status : string
}.

End Volume.

Module Instance.

Record t : Type := mk {
  id : Z;
  hostname : string;
  state : power_state.t;
  state_description : string;
  host : string;
  launched_on : string;
  memory_mb : Z;
  volumes : list Volume.t
}.

End Instance.

(** The message handed to [rpc.call]: [{"method": m}] or
    [{"method": m, "args": {...}}]. *)
Record message : Type := {
  method : string;
  args : option (list (string * string))
}.

(** ** Outward effects *)

Inductive event : Type :=
| RpcCall (queue : string) (msg : message)
| InstanceSetState (instance_id : Z) (state : power_state.t)
                   (description : string)
| VolumeUpdate (volume_id : Z) (values : list (string * string))
| LogError (text : string)
| LogException (text : string).

Definition is_write (ev : event) : bool :=
  match ev with
  | InstanceSetState _ _ _ | VolumeUpdate _ _ => true
  | _ => false
  end.

Definition is_rpc (ev : event) : bool :=
  match ev with
  | RpcCall _ _ => true
  | _ => false
  end.

Record World : Type := {
  ticks : nat;
  trace : list event
}.

Definition writes (w : World) : list event := filter is_write (trace w).
Definition rpcs (w : World) : list event := filter is_rpc (trace w).

(** ** Configuration and collaborators *)

(** [FLAGS]: [service_down_time] is defined by the driver (default 60);
    [compute_topic] and [instances_path] are declared elsewhere. *)
Record Flags : Type := {
  service_down_time : Z;
  compute_topic : string;
  instances_path : string
}.

(** What the driver reaches through [datetime], [nova.db] and [nova.rpc].
    These modules are not part of the driver, so their answers are taken as
    given: [clock n] is the [n]-th reading of [datetime.utcnow()], the
    repository reads answer from one snapshot, and [rpc_reply] is what the
    remote agent answers to a message on a queue. *)
Record Collaborators : Type := {
  clock : nat -> Z;
  instance_get : Z -> result Instance.t;
  service_get_all_by_topic : string -> list Service.t;
  service_get_all_compute_by_host : string -> result (list Service.t);
  queue_get_for : string -> string -> string;
  rpc_reply : string -> message -> result string
}.

(** ** The monad *)

Definition M (A : Type) : Type := World -> result A * World.

Definition ret {A : Type} (a : A) : M A := fun w => (OK a, w).

Definition raise {A : Type} (e : exn) : M A := fun w => (Raise e, w).

Definition bind {A B : Type} (m : M A) (k : A -> M B) : M B :=
  fun w =>
    match m w with
    | (OK a, w') => k a w'
    | (Raise e, w') => (Raise e, w')
    end.

Definition lift {A : Type} (r : result A) : M A := fun w => (r, w).

Definition emit (ev : event) : M unit :=
  fun w => (OK tt, {| ticks := ticks w; trace := trace w ++ [ev] |}).

(** [try: body except <classes>: handler]. *)
Definition try_except {A : Type} (body : M A) (classes : exn -> bool)
           (handler : exn -> M A) : M A :=
  fun w =>
    match body w with
    | (Raise e, w') => if classes e then handler e w' else (Raise e, w')
    | done => done
    end.

Declare Scope driver_scope.
Delimit Scope driver_scope with driver.

Notation "x <- m ;; k" := (bind m (fun x => k))
  (at level 100, m at next level, right associativity) : driver_scope.
Notation "m ;;; k" := (bind m (fun _ => k))
  (at level 100, right associativity) : driver_scope.

Open Scope driver_scope.

(** [l[0]]. *)
Definition item0 {A : Type} (l : list A) : M A :=
  match l with
  | x :: _ => ret x
  | [] => raise IndexError
  end.

(** [for x in l: body]. *)
Fixpoint for_each {A : Type} (l : list A) (body : A -> M unit) : M unit :=
  match l with
  | [] => ret tt
  | x :: rest => body x ;;; for_each rest body
  end.

(** [[f x for x in l if cond x]]. *)
Fixpoint comprehension {A B : Type} (f : A -> B) (cond : A -> M bool)
         (l : list A) : M (list B) :=
  match l with
  | [] => ret []
  | x :: rest =>
      keep <- cond x ;;
      tail <- comprehension f cond rest ;;
      ret (if keep then f x :: tail else tail)
  end.

(** The value of [datetime.timedelta(seconds=n)], in microseconds, for [n]
    within the range of [timedelta]; the constructor itself, with its range
    check, is [timedelta] below. *)
Definition timedelta_seconds (n : Z) : Z := n * 1000000.

(** A [timedelta] holds between -999999999 and 999999999 days (plus less
    than a day): [timedelta(seconds=n)] normalises to [n // 86400] days and is
    accepted exactly for these [n]. *)
Definition timedelta_fits (seconds : Z) : bool :=
  (-999999999 <=? seconds / 86400) && (seconds / 86400 <=? 999999999).

(** [datetime.timedelta(seconds=n)]: raises [OverflowError] outside the
    range. *)
Definition timedelta (seconds : Z) : M Z :=
  if timedelta_fits seconds then ret (timedelta_seconds seconds)
  else raise OverflowError.

(** ** The driver *)

Module Scheduler.

Section Driver.

Variable FLAGS : Flags.
Variable env : Collaborators.

Definition utcnow : M Z :=
  fun w => (OK (clock env (ticks w)),
            {| ticks := S (ticks w); trace := trace w |}).

Definition db_instance_get (instance_id : Z) : M Instance.t :=
  lift (instance_get env instance_id).

Definition db_service_get_all_by_topic (topic : string)
  : M (list Service.t) :=
  ret (service_get_all_by_topic env topic).

Definition db_service_get_all_compute_by_host (host : string)
  : M (list Service.t) :=
  lift (service_get_all_compute_by_host env host).

(** The two repository writes are recorded on the trace as they are issued.
    A write that itself raises is not modelled: what is proved about writes
    is about the writes a call issues and about calls that return. *)
Definition db_instance_set_state (instance_id : Z) (state : power_state.t)
           (description : string) : M unit :=
  emit (InstanceSetState instance_id state description).

Definition db_volume_update (volume_id : Z) (values : list (string * string))
  : M unit :=
  emit (VolumeUpdate volume_id values).

Definition rpc_call (queue : string) (msg : message) : M string :=
  emit (RpcCall queue msg) ;;;
  lift (rpc_reply env queue msg).

Definition logging_error (text : string) : M unit := emit (LogError text).

Definition logging_exception (text : string) : M unit :=
  emit (LogException text).

(** [service['updated_at'] or service['created_at']]: a [datetime] is always
    truthy, so the left operand wins unless it is [None]. *)
Definition last_heartbeat (service : Service.t) : Z :=
  match Service.updated_at service with
  | Some updated => updated
  | None => Service.created_at service
  end.

(** The comparison of [service_is_up] at a given clock reading. *)
Definition up_at (now : Z) (service : Service.t) : bool :=
  let elapsed := now - last_heartbeat service in
  elapsed <? timedelta_seconds (service_down_time FLAGS).

Definition service_is_up (service : Service.t) : M bool :=
  now <- utcnow ;;
  ret (up_at now service).

Definition hosts_up (topic : string) : M (list string) :=
  services <- db_service_get_all_by_topic topic ;;
  comprehension Service.host service_is_up services.

Definition schedule (topic : string) : M string :=
  raise NotImplementedError.

Definition _live_migration_src_check (instance_ref : Instance.t) : M unit :=
  (if negb (power_state.eqb power_state.RUNNING (Instance.state instance_ref))
      || negb ("running" =? Instance.state_description instance_ref)%string
   then raise Invalid
   else ret tt) ;;;
  (if negb (Z.of_nat (List.length (Instance.volumes instance_ref)) =? 0)
   then
     services <- db_service_get_all_by_topic "volume" ;;
     unreachable <-
       (if Z.of_nat (List.length services) <? 1 then ret true
        else
          first <- item0 services ;;
          up <- service_is_up first ;;
          ret (negb up)) ;;
     if unreachable then raise Invalid else ret tt
   else ret tt) ;;;
  let src := Instance.host instance_ref in
  services <- db_service_get_all_compute_by_host src ;;
  first <- item0 services ;;
  up <- service_is_up first ;;
  if negb up then raise Invalid else ret tt.

Definition has_enough_resources (instance_ref : Instance.t) (dest : string)
  : M unit :=
  service_refs <- db_service_get_all_compute_by_host dest ;;
  service_ref <- item0 service_refs ;;
  compute_service_ref <- item0 (Service.compute_service service_ref) ;;
  let mem_total := ComputeNode.memory_mb compute_service_ref in
  let mem_used := ComputeNode.memory_mb_used compute_service_ref in
  let mem_avail := mem_total - mem_used in
  let mem_inst := Instance.memory_mb instance_ref in
  if mem_avail <=? mem_inst then raise NotEmpty else ret tt.

Definition _live_migration_dest_check (instance_ref : Instance.t)
           (dest : string) : M unit :=
  dservice_refs <- db_service_get_all_compute_by_host dest ;;
  dservice_ref <- item0 dservice_refs ;;
  up <- service_is_up dservice_ref ;;
  (if negb up then raise Invalid else ret tt) ;;;
  let src := Instance.host instance_ref in
  (if (dest =? src)%string then raise Invalid else ret tt) ;;;
  has_enough_resources instance_ref dest.

(** The handler of the first [try] names [LOG], which the module never
    binds (it imports [nova.log] as [logging]), so evaluating [LOG.error]
    raises [NameError] in place of the re-raise below it. *)
Definition mounted_on_same_shared_storage (instance_ref : Instance.t)
           (dest : string) : M unit :=
  let src := Instance.host instance_ref in
  let dst_t := queue_get_for env (compute_topic FLAGS) dest in
  let src_t := queue_get_for env (compute_topic FLAGS) src in
  filename <-
    try_except
      (rpc_call dst_t {| method := "mktmpfile"; args := None |})
      (fun e => exn_eqb e RemoteError)
      (fun e => raise NameError) ;;
  try_except
    (rpc_call src_t {| method := "confirm_tmpfile";
                       args := Some [("path", filename)] |} ;;;
     ret tt)
    (fun e => exn_eqb e RemoteError || exn_eqb e NotFound)
    (fun e =>
       let ipath := instances_path FLAGS in
       logging_error ("Cannot comfirm " ++ ipath ++ " at " ++ dest
                      ++ " is located at same shared storage.")%string ;;;
       raise e).

Definition _live_migration_common_check (instance_ref : Instance.t)
           (dest : string) : M unit :=
  mounted_on_same_shared_storage instance_ref dest ;;;
  dservice_refs <- db_service_get_all_compute_by_host dest ;;
  dservice_first <- item0 dservice_refs ;;
  dservice_ref <- item0 (Service.compute_service dservice_first) ;;
  oservice_refs <-
    try_except
      (db_service_get_all_compute_by_host (Instance.launched_on instance_ref))
      (fun e => exn_eqb e NotFound)
      (fun e => raise Invalid) ;;
  oservice_first <- item0 oservice_refs ;;
  oservice_ref <- item0 (Service.compute_service oservice_first) ;;
  (let o := ComputeNode.hypervisor_type oservice_ref in
   let d := ComputeNode.hypervisor_type dservice_ref in
   if negb (o =? d)%string then raise Invalid else ret tt) ;;;
  (let o := ComputeNode.hypervisor_version oservice_ref in
   let d := ComputeNode.hypervisor_version dservice_ref in
   if o >? d then raise Invalid else ret tt) ;;;
  try_except
    (rpc_call (queue_get_for env (compute_topic FLAGS) dest)
              {| method := "compare_cpu";
                 args := Some [("cpu_info",
                                ComputeNode.cpu_info oservice_ref)] |} ;;;
     ret tt)
    (fun e => exn_eqb e RemoteError)
    (fun e =>
       let src := Instance.host instance_ref in
       logging_exception ("host " ++ dest
                          ++ " is not compatible with original host "
                          ++ src ++ ".")%string ;;;
       raise e).

Definition schedule_live_migration (instance_id : Z) (dest : string)
  : M string :=
  instance_ref <- db_instance_get instance_id ;;
  _live_migration_src_check instance_ref ;;;
  _live_migration_dest_check instance_ref dest ;;;
  _live_migration_common_check instance_ref dest ;;;
  db_instance_set_state instance_id power_state.PAUSED "migrating" ;;;
  for_each (Instance.volumes instance_ref)
           (fun v => db_volume_update (Volume.id v)
                                      [("status", "migrating")]) ;;;
  let src := Instance.host instance_ref in
  ret src.

End Driver.

End Scheduler.

(** ** The liveness test with its threshold built in full *)

(** [service_is_up] with line 58 written out: the threshold is built by
    [datetime.timedelta] on every call, after the clock has been read, and
    that constructor raises [OverflowError] when [service_down_time] is
    outside the range of [timedelta].  For a threshold within the range this
    is [Scheduler.service_is_up]; the checks and the pipeline above are
    studied on such thresholds. *)
Module Exact.

Section Driver.

Variable FLAGS : Flags.
Variable env : Collaborators.

Definition service_is_up (service : Service.t) : M bool :=
  let last_heartbeat := Scheduler.last_heartbeat service in
  now <- Scheduler.utcnow env ;;
  let elapsed := now - last_heartbeat in
  threshold <- timedelta (service_down_time FLAGS) ;;
  ret (elapsed <? threshold).

End Driver.

End Exact.

(** ** Varying one collaborator *)

Definition with_topic_services (env : Collaborators)
           (by_topic : string -> list Service.t) : Collaborators :=
  {| clock := clock env;
     instance_get := instance_get env;
     service_get_all_by_topic := by_topic;
     service_get_all_compute_by_host := service_get_all_compute_by_host env;
     queue_get_for := queue_get_for env;
     rpc_reply := rpc_reply env |}.

Definition with_clock (env : Collaborators) (readings : nat -> Z)
  : Collaborators :=
  {| clock := readings;
     instance_get := instance_get env;
     service_get_all_by_topic := service_get_all_by_topic env;
     service_get_all_compute_by_host := service_get_all_compute_by_host env;
     queue_get_for := queue_get_for env;
     rpc_reply := rpc_reply env |}.

(** ** What the specification says about liveness *)

(** The later of the update and the creation timestamp; a record that was
    never updated has only its creation timestamp. *)
Definition later_timestamp (service : Service.t) : Z :=
  match Service.updated_at service with
  | Some updated => Z.max updated (Service.created_at service)
  | None => Service.created_at service
  end.


(** The test that opens the source check. *)
Definition not_running (instance_ref : Instance.t) : bool :=
  negb (power_state.eqb power_state.RUNNING (Instance.state instance_ref))
  || negb ("running" =? Instance.state_description instance_ref)%string.

(** The three messages the driver sends. *)
Definition mktmpfile_msg : message :=
  {| method := "mktmpfile"; args := None |}.

Definition confirm_tmpfile_msg (filename : string) : message :=
  {| method := "confirm_tmpfile"; args := Some [("path", filename)] |}.

Definition compare_cpu_msg (cpu : string) : message :=
  {| method := "compare_cpu"; args := Some [("cpu_info", cpu)] |}.

(** A world with more events on its trace. *)
Definition extend (w : World) (events : list event) : World :=
  {| ticks := ticks w; trace := trace w ++ events |}.

(** The writes of the transition phase, in the order they are issued. *)
Definition transition_events (instance_id : Z) (instance_ref : Instance.t)
  : list event :=
  InstanceSetState instance_id power_state.PAUSED "migrating"
  :: map (fun v => VolumeUpdate (Volume.id v) [("status", "migrating")])
         (Instance.volumes instance_ref).

(** A computation is quiet when it leaves the repository writes of the
    trace as they were, whether it returns or raises. *)
Definition quiet {A : Type} (m : M A) : Prop :=
  forall w, writes (snd (m w)) = writes w.

(** A computation is local when it leaves the trace as it was and reads the
    clock at most [n] times, whether it returns or raises. *)
Definition local_reads (n : nat) {A : Type} (m : M A) : Prop :=
  forall w,
    trace (snd (m w)) = trace w
    /\ (ticks w <= ticks (snd (m w)) <= n + ticks w)%nat.

(** The messages of one call, in the order they go out: the probe file is
    made at the destination, confirmed at the source, and the CPU of the
    launch host is compared at the destination. *)
Definition pipeline_messages (dst_t src_t filename cpu : string)
  : list event :=
  [RpcCall dst_t mktmpfile_msg;
   RpcCall src_t (confirm_tmpfile_msg filename);
   RpcCall dst_t (compare_cpu_msg cpu)].

(** The same world after [n] more readings of the clock. *)
Definition later (n : nat) (w : World) : World :=
  {| ticks := (n + ticks w)%nat; trace := trace w |}.

(** ** A small fleet to run the driver on *)

Module Scenario.

Definition FLAGS : Flags :=
  {| service_down_time := 60;
     compute_topic := "compute";
     instances_path := "/var/lib/nova/instances" |}.

(** A threshold of 10^14 seconds, a day more than a [timedelta] holds. *)
Definition FLAGS_huge : Flags :=
  {| service_down_time := 100000000000000;
     compute_topic := "compute";
     instances_path := "/var/lib/nova/instances" |}.

Definition node (total used : Z) (hv : string) (version : Z) (cpu : string)
  : ComputeNode.t :=
  ComputeNode.mk total used hv version cpu.

(** A service that last reported at [heartbeat] seconds. *)
Definition service_on (host topic : string) (heartbeat : Z)
           (nodes : list ComputeNode.t) : Service.t :=
  Service.mk host topic 0 (Some (timedelta_seconds heartbeat)) nodes.

Definition nodeA : ComputeNode.t := node 4096 1024 "kvm" 12 "cpu-A".
Definition nodeB : ComputeNode.t := node 2048 1024 "kvm" 12 "cpu-B".

Definition serviceA : Service.t := service_on "A" "compute" 100 [nodeA].
Definition serviceB : Service.t := service_on "B" "compute" 100 [nodeB].

(** Workload 7: running on host A, where it was launched, 512 MB, no
    volumes. *)
Definition W : Instance.t :=
  Instance.mk 7 "i-00000007" power_state.RUNNING "running" "A" "A" 512 [].

Definition queue (topic host : string) : string :=
  (topic ++ "." ++ host)%string.

Definition probe_file : string := "/var/lib/nova/instances/tmpK3x".

(** Both agents answer every call. *)
Definition agents_ok (q : string) (msg : message) : result string :=
  if (method msg =? "mktmpfile")%string then OK probe_file else OK "".

(** The source agent does not find the probe file. *)
Definition no_such_file (q : string) (msg : message) : result string :=
  if (method msg =? "confirm_tmpfile")%string then Raise NotFound
  else agents_ok q msg.

(** The destination agent cannot create the probe file. *)
Definition mktmpfile_fails (q : string) (msg : message) : result string :=
  if (method msg =? "mktmpfile")%string then Raise RemoteError
  else agents_ok q msg.

(** The destination agent rejects the CPU of the launch host. *)
Definition cpu_rejected (q : string) (msg : message) : result string :=
  if (method msg =? "compare_cpu")%string then Raise RemoteError
  else agents_ok q msg.

(** The repository's two reads of the service table. *)
Definition by_topic (services : list Service.t) (topic : string)
  : list Service.t :=
  filter (fun s => (Service.topic s =? topic)%string) services.

Definition compute_by_host (services : list Service.t) (host : string)
  : result (list Service.t) :=
  match filter (fun s => (Service.host s =? host)%string)
               (by_topic services "compute") with
  | [] => Raise NotFound
  | found => OK found
  end.

(** The fleet at 130 s holding workload [w] under id 7. *)
Definition fleet (w : Instance.t) (services : list Service.t)
           (reply : string -> message -> result string) : Collaborators :=
  {| clock := fun _ => timedelta_seconds 130;
     instance_get := fun i => if i =? 7 then OK w else Raise NotFound;
     service_get_all_by_topic := by_topic services;
     service_get_all_compute_by_host := compute_by_host services;
     queue_get_for := queue;
     rpc_reply := reply |}.

(** Hosts A and B, both heard from 30 s ago, every agent answering. *)
Definition calm : Collaborators := fleet W [serviceA; serviceB] agents_ok.

(** Host C runs another hypervisor; workload [W_moved] was launched there
    and now runs on A. *)
Definition nodeC : ComputeNode.t := node 4096 0 "xen" 12 "cpu-C".
Definition serviceC : Service.t := service_on "C" "compute" 100 [nodeC].
Definition W_moved : Instance.t :=
  Instance.mk 7 "i-00000007" power_state.RUNNING "running" "A" "C" 512 [].

(** [W] with one volume attached. *)
Definition W_attached : Instance.t :=
  Instance.mk 7 "i-00000007" power_state.RUNNING "running" "A" "A" 512
              [Volume.mk 3 "in-use"].

(** [W] paused. *)
Definition W_paused : Instance.t :=
  Instance.mk 7 "i-00000007" power_state.PAUSED "paused" "A" "A" 512 [].

(** A volume service heard from 30 s ago, and [W] with two volumes. *)
Definition serviceV : Service.t := service_on "V" "volume" 100 [].
Definition W_two_volumes : Instance.t :=
  Instance.mk 7 "i-00000007" power_state.RUNNING "running" "A" "A" 512
              [Volume.mk 3 "in-use"; Volume.mk 5 "in-use"].

Definition w0 : World := {| ticks := 0; trace := [] |}.

End Scenario.

(** * Properties *)

Import Scheduler.

(** ** Running the monad *)

Lemma bind_OK {A B : Type} (m : M A) (k : A -> M B) w a w' :
  m w = (OK a, w') -> bind m k w = k a w'.
Proof. intros H. unfold bind. rewrite H. reflexivity. Qed.

Lemma bind_Raise {A B : Type} (m : M A) (k : A -> M B) w e w' :
  m w = (Raise e, w') -> bind m k w = (Raise e, w').
Proof. intros H. unfold bind. rewrite H. reflexivity. Qed.

Lemma service_is_up_run FLAGS env service w :
  service_is_up FLAGS env service w
  = (OK (up_at FLAGS (clock env (ticks w)) service), later 1 w).
Proof. reflexivity. Qed.

(** ** Liveness *)

(** The thresholds a [timedelta] holds, in seconds. *)
Lemma timedelta_fits_range (seconds : Z) :
  timedelta_fits seconds = true
  <-> -86399999913600 <= seconds <= 86399999999999.
Proof.
  unfold timedelta_fits.
  rewrite andb_true_iff, !Z.leb_le.
  pose proof (Z.div_mod seconds 86400 ltac:(lia)) as Hdiv.
  pose proof (Z.mod_pos_bound seconds 86400 ltac:(lia)) as Hmod.
  lia.
Qed.

(** [Exact.service_is_up] reads the clock, then builds the threshold. *)
Lemma exact_service_is_up_run FLAGS env service w :
  Exact.service_is_up FLAGS env service w
  = if timedelta_fits (service_down_time FLAGS)
    then (OK (up_at FLAGS (clock env (ticks w)) service), later 1 w)
    else (Raise OverflowError, later 1 w).
Proof.
  unfold Exact.service_is_up, timedelta, bind, utcnow, ret, raise.
  destruct (timedelta_fits (service_down_time FLAGS)); reflexivity.
Qed.

(** For a threshold a [timedelta] holds, the liveness test the pipeline is
    built on is the exact one. *)
Lemma exact_service_is_up_in_range FLAGS env service w :
  timedelta_fits (service_down_time FLAGS) = true ->
  Exact.service_is_up FLAGS env service w
  = Scheduler.service_is_up FLAGS env service w.
Proof.
  intros Hfits. rewrite exact_service_is_up_run, Hfits, service_is_up_run.
  reflexivity.
Qed.

(** C8, as stated, fails: under a threshold of 10^14 seconds, a service
    whose heartbeat is 30 s old, far below the threshold, is not reported
    up; building the threshold raises [OverflowError] once the clock has
    been read. *)
Lemma service_is_up_raises_at_oversized_threshold :
  let T := timedelta_seconds (service_down_time Scenario.FLAGS_huge) in
  let A := clock Scenario.calm (ticks Scenario.w0)
           - last_heartbeat Scenario.serviceA in
  A < T
  /\ Exact.service_is_up Scenario.FLAGS_huge Scenario.calm Scenario.serviceA
                         Scenario.w0
     = (Raise OverflowError, later 1 Scenario.w0).
Proof. cbv zeta. split; reflexivity. Qed.

(** C8, amended: for every threshold T that [datetime.timedelta] accepts,
    with the heartbeat taken as [updated_at] when present and [created_at]
    otherwise, [service_is_up] answers true exactly when the heartbeat's age
    is below the threshold, and false at the boundary; for a threshold
    outside that range it raises [OverflowError] after reading the clock. *)
Theorem service_is_up_iff_age_below_threshold
        (FLAGS : Flags) (env : Collaborators) (service : Service.t)
        (w : World) :
  let T := timedelta_seconds (service_down_time FLAGS) in
  let now := clock env (ticks w) in
  let heartbeat_time :=
    match Service.updated_at service with
    | Some updated => updated
    | None => Service.created_at service
    end in
  let A := now - heartbeat_time in
  (timedelta_fits (service_down_time FLAGS) = true ->
   exists up : bool,
     Exact.service_is_up FLAGS env service w = (OK up, later 1 w)
     /\ (up = true <-> A < T)
     /\ (A = T -> up = false))
  /\ (timedelta_fits (service_down_time FLAGS) = false ->
      Exact.service_is_up FLAGS env service w
      = (Raise OverflowError, later 1 w)).
Proof.
  cbv zeta. rewrite exact_service_is_up_run. split; intros ->.
  - exists (up_at FLAGS (clock env (ticks w)) service).
    split; [reflexivity|].
    unfold up_at, last_heartbeat. split.
    + apply Z.ltb_lt.
    + intros ->. apply Z.ltb_irrefl.
  - reflexivity.
Qed.

Lemma service_is_up_iff_age_below_threshold_witness :
  exists up : bool,
    Exact.service_is_up Scenario.FLAGS Scenario.calm Scenario.serviceA
                        Scenario.w0
    = (OK up, later 1 Scenario.w0)
    /\ (up = true <->
        timedelta_seconds 130 - timedelta_seconds 100 < timedelta_seconds 60)
    /\ (timedelta_seconds 130 - timedelta_seconds 100 = timedelta_seconds 60
        -> up = false).
Proof.
  apply (proj1 (service_is_up_iff_age_below_threshold
                  Scenario.FLAGS Scenario.calm Scenario.serviceA
                  Scenario.w0)).
  reflexivity.
Defined.

(** C7, as stated, fails, in two ways.  A record whose update timestamp
    (10 s) is earlier than its creation timestamp (100 s) is judged at 120 s
    by its update timestamp and found down, although the later of the two
    timestamps is only 20 s old, below the threshold of 60 s.  And under a
    threshold of 10^14 seconds a record whose later timestamp is 30 s old is
    not reported up: the call raises [OverflowError]. *)
Lemma service_is_up_ignores_later_created_at :
  let service := Service.mk "A" "compute" (timedelta_seconds 100)
                            (Some (timedelta_seconds 10)) [] in
  let env := with_clock (Scenario.fleet Scenario.W [service]
                                        Scenario.agents_ok)
                        (fun _ => timedelta_seconds 120) in
  let w := Scenario.w0 in
  (Exact.service_is_up Scenario.FLAGS env service w = (OK false, later 1 w)
   /\ clock env (ticks w) - later_timestamp service
      < timedelta_seconds (service_down_time Scenario.FLAGS))
  /\ (Exact.service_is_up Scenario.FLAGS_huge Scenario.calm
                          Scenario.serviceA w
      = (Raise OverflowError, later 1 w)
      /\ clock Scenario.calm (ticks w) - later_timestamp Scenario.serviceA
         < timedelta_seconds (service_down_time Scenario.FLAGS_huge)).
Proof. cbv zeta. repeat split. Qed.

(** C7, amended: for a record whose update timestamp is absent or not
    earlier than its creation timestamp, and a threshold that
    [datetime.timedelta] accepts, [service_is_up] answers true exactly when
    the time elapsed since the later of the two timestamps is below the
    threshold. *)
Theorem service_is_up_iff_later_timestamp_fresh
        (FLAGS : Flags) (env : Collaborators) (service : Service.t)
        (w : World) :
  (forall updated, Service.updated_at service = Some updated ->
                   Service.created_at service <= updated) ->
  timedelta_fits (service_down_time FLAGS) = true ->
  exists up : bool,
    Exact.service_is_up FLAGS env service w = (OK up, later 1 w)
    /\ (up = true <->
        clock env (ticks w) - later_timestamp service
        < timedelta_seconds (service_down_time FLAGS)).
Proof.
  intros Hordered Hfits.
  exists (up_at FLAGS (clock env (ticks w)) service).
  rewrite exact_service_is_up_run, Hfits.
  split; [reflexivity|].
  unfold up_at, last_heartbeat, later_timestamp.
  destruct (Service.updated_at service) as [updated|].
  - specialize (Hordered updated eq_refl).
    rewrite Z.max_l by lia. apply Z.ltb_lt.
  - apply Z.ltb_lt.
Qed.

Lemma service_is_up_iff_later_timestamp_fresh_witness :
  exists up : bool,
    Exact.service_is_up Scenario.FLAGS Scenario.calm Scenario.serviceA
                        Scenario.w0
    = (OK up, later 1 Scenario.w0)
    /\ (up = true <->
        timedelta_seconds 130 - later_timestamp Scenario.serviceA
        < timedelta_seconds 60).
Proof.
  apply (service_is_up_iff_later_timestamp_fresh
           Scenario.FLAGS Scenario.calm Scenario.serviceA Scenario.w0).
  - intros updated H. injection H as <-. vm_compute. discriminate.
  - reflexivity.
Defined.

(** ** Host enumeration *)







(** Two live volume services on host A and a stale one on host B: A is
    listed twice. *)
Example hosts_up_repeats_a_host :
  let a1 := Scenario.service_on "A" "volume" 100 [] in
  let a2 := Scenario.service_on "A" "volume" 110 [] in
  let b := Scenario.service_on "B" "volume" 20 [] in
  let env := Scenario.fleet Scenario.W [a1; Scenario.serviceA; b; a2]
                            Scenario.agents_ok in
  hosts_up Scenario.FLAGS env "volume" Scenario.w0
  = (OK ["A"; "A"], later 3 Scenario.w0).
Proof. reflexivity. Qed.

(** ** The capacity check *)

(** The capacity check once the destination's compute record is in hand. *)
Lemma has_enough_resources_run
      (env : Collaborators) (instance_ref : Instance.t) (dest : string)
      (service_ref : Service.t) (others : list Service.t)
      (compute_service_ref : ComputeNode.t) (more : list ComputeNode.t)
      (w : World) :
  service_get_all_compute_by_host env dest = OK (service_ref :: others) ->
  Service.compute_service service_ref = compute_service_ref :: more ->
  has_enough_resources env instance_ref dest w
  = if ComputeNode.memory_mb compute_service_ref
       - ComputeNode.memory_mb_used compute_service_ref
       <=? Instance.memory_mb instance_ref
    then (Raise NotEmpty, w) else (OK tt, w).
Proof.
  intros Hdest Hnode.
  unfold has_enough_resources, db_service_get_all_compute_by_host,
    bind, lift, item0, ret, raise.
  rewrite Hdest, Hnode.
  destruct (_ <=? _); reflexivity.
Qed.

(** C4: with [available = memory_mb - memory_mb_used] of the destination's
    compute service, [has_enough_resources] raises exactly when
    [available <= requested]: equality fails, one megabyte more passes, and
    the error raised, [NotEmpty], is not [Invalid]. *)
Theorem has_enough_resources_strict
        (env : Collaborators) (instance_ref : Instance.t)
        (dest : string) (service_ref : Service.t) (others : list Service.t)
        (compute_service_ref : ComputeNode.t) (more : list ComputeNode.t)
        (w : World) :
  service_get_all_compute_by_host env dest = OK (service_ref :: others) ->
  Service.compute_service service_ref = compute_service_ref :: more ->
  let available := ComputeNode.memory_mb compute_service_ref
                   - ComputeNode.memory_mb_used compute_service_ref in
  let requested := Instance.memory_mb instance_ref in
  let check := has_enough_resources env instance_ref dest w in
  (available <= requested <-> check = (Raise NotEmpty, w))
  /\ (requested < available <-> check = (OK tt, w))
  /\ (available = requested -> check = (Raise NotEmpty, w))
  /\ (available = requested + 1 -> check = (OK tt, w))
  /\ NotEmpty <> Invalid.
Proof.
  intros Hdest Hnode. cbv zeta.
  rewrite (has_enough_resources_run _ instance_ref _ _ _ _ _ w Hdest Hnode).
  destruct (Z.leb_spec
              (ComputeNode.memory_mb compute_service_ref
               - ComputeNode.memory_mb_used compute_service_ref)
              (Instance.memory_mb instance_ref)) as [Hle|Hgt].
  - repeat split; try reflexivity; try discriminate; try lia.
  - repeat split; try reflexivity; try discriminate; try lia.
Qed.

Lemma has_enough_resources_strict_witness :
  has_enough_resources Scenario.calm Scenario.W "B" Scenario.w0
  = (OK tt, Scenario.w0).
Proof.
  apply (proj1 (proj1 (proj2 (has_enough_resources_strict
                                Scenario.calm Scenario.W "B"
                                Scenario.serviceB [] Scenario.nodeB []
                                Scenario.w0 eq_refl eq_refl)))).
  reflexivity.
Defined.

(** ** The common check *)

(** The common check once the storage probe has passed and both compute
    records are in hand: the two hypervisor comparisons, then the CPU
    probe. *)
Lemma common_check_run
      (FLAGS : Flags) (env : Collaborators) (instance_ref : Instance.t)
      (dest : string) (w w1 : World)
      (dfirst : Service.t) (drest : list Service.t)
      (dnode : ComputeNode.t) (dnodes : list ComputeNode.t)
      (ofirst : Service.t) (orest : list Service.t)
      (onode : ComputeNode.t) (onodes : list ComputeNode.t) :
  mounted_on_same_shared_storage FLAGS env instance_ref dest w
  = (OK tt, w1) ->
  service_get_all_compute_by_host env dest = OK (dfirst :: drest) ->
  Service.compute_service dfirst = dnode :: dnodes ->
  service_get_all_compute_by_host env (Instance.launched_on instance_ref)
  = OK (ofirst :: orest) ->
  Service.compute_service ofirst = onode :: onodes ->
  _live_migration_common_check FLAGS env instance_ref dest w
  = if negb (ComputeNode.hypervisor_type onode
             =? ComputeNode.hypervisor_type dnode)%string
    then (Raise Invalid, w1)
    else if ComputeNode.hypervisor_version onode
            >? ComputeNode.hypervisor_version dnode
         then (Raise Invalid, w1)
         else
           let q := queue_get_for env (compute_topic FLAGS) dest in
           let msg := {| method := "compare_cpu";
                         args := Some [("cpu_info",
                                        ComputeNode.cpu_info onode)] |} in
           let w2 := {| ticks := ticks w1;
                        trace := trace w1 ++ [RpcCall q msg] |} in
           match rpc_reply env q msg with
           | OK _ => (OK tt, w2)
           | Raise RemoteError =>
               (Raise RemoteError,
                {| ticks := ticks w2;
                   trace := trace w2
                            ++ [LogException
                                  ("host " ++ dest
                                   ++ " is not compatible with original host "
                                   ++ Instance.host instance_ref ++ ".")] |})
           | Raise e => (Raise e, w2)
           end.
Proof.
  intros Hprobe Hdest Hdnode Horig Honode.
  unfold _live_migration_common_check.
  rewrite (bind_OK _ _ _ _ _ Hprobe).
  unfold db_service_get_all_compute_by_host, try_except, rpc_call,
    logging_exception, emit, lift, bind, item0, ret, raise.
  rewrite Hdest, Hdnode, Horig, Honode.
  destruct (negb _); [reflexivity|].
  destruct (_ >? _); [reflexivity|].
  cbv zeta. cbn [ticks trace].
  destruct (rpc_reply env _ _) as [v|e]; [reflexivity|].
  destruct e; reflexivity.
Qed.

(** C5: the common check reads the hypervisor identity of the host the
    workload was launched on ([launched_on]), whatever its current host,
    and compares it with the destination's: different type strings raise
    [Invalid], an original version above the destination's raises
    [Invalid], and with equal types and an original version not above the
    destination's the check goes on to the CPU probe, whose outcome is then
    the outcome of the check. *)
Theorem common_check_compares_launch_host
        (FLAGS : Flags) (env : Collaborators) (instance_ref : Instance.t)
        (dest : string) (w w1 : World)
        (dfirst : Service.t) (drest : list Service.t)
        (dnode : ComputeNode.t) (dnodes : list ComputeNode.t)
        (ofirst : Service.t) (orest : list Service.t)
        (onode : ComputeNode.t) (onodes : list ComputeNode.t) :
  mounted_on_same_shared_storage FLAGS env instance_ref dest w
  = (OK tt, w1) ->
  service_get_all_compute_by_host env dest = OK (dfirst :: drest) ->
  Service.compute_service dfirst = dnode :: dnodes ->
  service_get_all_compute_by_host env (Instance.launched_on instance_ref)
  = OK (ofirst :: orest) ->
  Service.compute_service ofirst = onode :: onodes ->
  let check := _live_migration_common_check FLAGS env instance_ref dest w in
  let o_type := ComputeNode.hypervisor_type onode in
  let d_type := ComputeNode.hypervisor_type dnode in
  let o_version := ComputeNode.hypervisor_version onode in
  let d_version := ComputeNode.hypervisor_version dnode in
  let q := queue_get_for env (compute_topic FLAGS) dest in
  let msg := compare_cpu_msg (ComputeNode.cpu_info onode) in
  (o_type <> d_type -> check = (Raise Invalid, w1))
  /\ (o_type = d_type -> o_version > d_version ->
      check = (Raise Invalid, w1))
  /\ (o_type = d_type -> o_version <= d_version ->
      exists (r : result unit) (w2 : World) (logged : list event),
        check = (r, w2)
        /\ trace w2 = trace w1 ++ RpcCall q msg :: logged
        /\ r = match rpc_reply env q msg with
               | OK _ => OK tt
               | Raise e => Raise e
               end).
Proof.
  intros Hprobe Hdest Hdnode Horig Honode. cbv zeta.
  rewrite (common_check_run _ _ _ _ _ _ _ _ _ _ _ _ _ _
                            Hprobe Hdest Hdnode Horig Honode).
  unfold compare_cpu_msg.
  split; [|split].
  - intros Hne. apply String.eqb_neq in Hne. rewrite Hne. reflexivity.
  - intros Heq Hgt. apply String.eqb_eq in Heq. rewrite Heq.
    rewrite Z.gtb_ltb. destruct (Z.ltb_spec
      (ComputeNode.hypervisor_version dnode)
      (ComputeNode.hypervisor_version onode)); [reflexivity|lia].
  - intros Heq Hle. apply String.eqb_eq in Heq. rewrite Heq.
    rewrite Z.gtb_ltb. destruct (Z.ltb_spec
      (ComputeNode.hypervisor_version dnode)
      (ComputeNode.hypervisor_version onode)); [lia|].
    cbv zeta. cbn [negb].
    destruct (rpc_reply env _ _) as [v|e].
    + eexists _, _, []. repeat split; reflexivity.
    + destruct e;
        try (eexists _, _, []; repeat split; reflexivity).
      eexists _, _, [_]. cbn [trace]. rewrite <- app_assoc.
      repeat split; reflexivity.
Qed.

(** A workload launched on C (xen) and now running on A (kvm) is refused
    for B (kvm): the comparison is with C, not with A. *)
Lemma common_check_compares_launch_host_witness :
  _live_migration_common_check
    Scenario.FLAGS
    (Scenario.fleet Scenario.W_moved
                    [Scenario.serviceA; Scenario.serviceB; Scenario.serviceC]
                    Scenario.agents_ok)
    Scenario.W_moved "B" Scenario.w0
  = (Raise Invalid,
     {| ticks := 0;
        trace := [RpcCall "compute.B"
                          {| method := "mktmpfile"; args := None |};
                  RpcCall "compute.A"
                          {| method := "confirm_tmpfile";
                             args := Some [("path", Scenario.probe_file)] |}]
     |}).
Proof.
  apply (proj1 (common_check_compares_launch_host
                  Scenario.FLAGS
                  (Scenario.fleet Scenario.W_moved
                                  [Scenario.serviceA; Scenario.serviceB;
                                   Scenario.serviceC]
                                  Scenario.agents_ok)
                  Scenario.W_moved "B" Scenario.w0 _
                  Scenario.serviceB [] Scenario.nodeB []
                  Scenario.serviceC [] Scenario.nodeC []
                  eq_refl eq_refl eq_refl eq_refl eq_refl)).
  discriminate.
Defined.

(** ** The source check *)

Lemma power_state_eqb_eq (a b : power_state.t) :
  power_state.eqb a b = true <-> a = b.
Proof. destruct a, b; simpl; split; congruence. Qed.

Lemma not_running_true (instance_ref : Instance.t) :
  Instance.state instance_ref <> power_state.RUNNING
  \/ Instance.state_description instance_ref <> "running" ->
  not_running instance_ref = true.
Proof.
  unfold not_running. intros [Hstate|Hdescr].
  - destruct (power_state.eqb _ _) eqn:E; [|reflexivity].
    apply power_state_eqb_eq in E. congruence.
  - destruct (String.eqb_spec "running"
                (Instance.state_description instance_ref)) as [E|E].
    + congruence.
    + apply orb_true_r.
Qed.

Lemma src_check_not_running FLAGS env instance_ref w :
  not_running instance_ref = true ->
  _live_migration_src_check FLAGS env instance_ref w = (Raise Invalid, w).
Proof.
  unfold not_running, _live_migration_src_check. intros H.
  unfold bind at 1. rewrite H. reflexivity.
Qed.



(** Only the first record the repository returns is consulted: a stale
    volume service listed ahead of a fresh one still fails the check. *)
Example src_check_reads_first_volume_service_only :
  let stale := Scenario.service_on "V1" "volume" 20 [] in
  let fresh := Scenario.service_on "V2" "volume" 100 [] in
  _live_migration_src_check
    Scenario.FLAGS
    (Scenario.fleet Scenario.W_attached
                    [stale; fresh; Scenario.serviceA; Scenario.serviceB]
                    Scenario.agents_ok)
    Scenario.W_attached Scenario.w0
  = (Raise Invalid, later 1 Scenario.w0).
Proof. reflexivity. Qed.

(** ** The pipeline *)

(** The events [schedule_live_migration] appends once every check has
    passed. *)
Lemma for_each_emit {A : Type} (f : A -> event) (l : list A) :
  forall w,
    for_each l (fun x => emit (f x)) w
    = (OK tt, {| ticks := ticks w; trace := trace w ++ map f l |}).
Proof.
  induction l as [|x l IH]; intros w.
  - simpl. rewrite app_nil_r. destruct w. reflexivity.
  - cbn [for_each map]. unfold bind at 1. unfold emit at 1.
    rewrite IH. cbn [ticks trace]. rewrite <- app_assoc. reflexivity.
Qed.

Lemma schedule_live_migration_run
      FLAGS env instance_id dest instance_ref w :
  instance_get env instance_id = OK instance_ref ->
  schedule_live_migration FLAGS env instance_id dest w
  = match _live_migration_src_check FLAGS env instance_ref w with
    | (Raise e, w1) => (Raise e, w1)
    | (OK _, w1) =>
        match _live_migration_dest_check FLAGS env instance_ref dest w1 with
        | (Raise e, w2) => (Raise e, w2)
        | (OK _, w2) =>
            match _live_migration_common_check FLAGS env instance_ref dest w2
            with
            | (Raise e, w3) => (Raise e, w3)
            | (OK _, w3) =>
                (OK (Instance.host instance_ref),
                 {| ticks := ticks w3;
                    trace := trace w3
                             ++ transition_events instance_id instance_ref |})
            end
        end
    end.
Proof.
  intros Hget. unfold schedule_live_migration, db_instance_get.
  unfold bind at 1. unfold lift. rewrite Hget.
  unfold bind at 1.
  destruct (_live_migration_src_check _ _ _ _) as [[[]|e] w1];
    [|reflexivity].
  unfold bind at 1.
  destruct (_live_migration_dest_check _ _ _ _ _) as [[[]|e] w2];
    [|reflexivity].
  unfold bind at 1.
  destruct (_live_migration_common_check _ _ _ _ _) as [[[]|e] w3];
    [|reflexivity].
  unfold db_instance_set_state, db_volume_update.
  unfold bind at 1. unfold emit at 1.
  unfold bind at 1.
  rewrite (for_each_emit
             (fun v => VolumeUpdate (Volume.id v) [("status", "migrating")])).
  unfold ret, transition_events. cbn [ticks trace].
  rewrite <- app_assoc. reflexivity.
Qed.

(** C9: a workload whose power state is not [RUNNING], or whose
    state-description is not "running", makes [schedule_live_migration]
    raise [Invalid] in the very world it was called in: the clock was not
    read and the trace has not grown, so no [compare_cpu], [mktmpfile] or
    [confirm_tmpfile] went out. *)
Theorem not_running_fails_before_any_rpc
        (FLAGS : Flags) (env : Collaborators) (instance_id : Z)
        (dest : string) (instance_ref : Instance.t) (w : World) :
  instance_get env instance_id = OK instance_ref ->
  Instance.state instance_ref <> power_state.RUNNING
  \/ Instance.state_description instance_ref <> "running" ->
  schedule_live_migration FLAGS env instance_id dest w = (Raise Invalid, w)
  /\ rpcs (snd (schedule_live_migration FLAGS env instance_id dest w))
     = rpcs w.
Proof.
  intros Hget Hnot.
  rewrite (schedule_live_migration_run _ _ _ _ _ _ Hget).
  rewrite (src_check_not_running _ _ _ _ (not_running_true _ Hnot)).
  split; reflexivity.
Qed.

Lemma not_running_fails_before_any_rpc_witness :
  schedule_live_migration
    Scenario.FLAGS
    (Scenario.fleet Scenario.W_paused [Scenario.serviceA; Scenario.serviceB]
                    Scenario.agents_ok)
    7 "B" Scenario.w0
  = (Raise Invalid, Scenario.w0)
  /\ rpcs (snd (schedule_live_migration
                  Scenario.FLAGS
                  (Scenario.fleet Scenario.W_paused
                                  [Scenario.serviceA; Scenario.serviceB]
                                  Scenario.agents_ok)
                  7 "B" Scenario.w0))
     = rpcs Scenario.w0.
Proof.
  apply (not_running_fails_before_any_rpc
           Scenario.FLAGS
           (Scenario.fleet Scenario.W_paused
                           [Scenario.serviceA; Scenario.serviceB]
                           Scenario.agents_ok)
           7 "B" Scenario.W_paused Scenario.w0 eq_refl).
  left. discriminate.
Defined.

(** ** No writes before the transition *)

Lemma quiet_ret {A : Type} (a : A) : quiet (ret a).
Proof. intros w. reflexivity. Qed.

Lemma quiet_raise {A : Type} (e : exn) : quiet (@raise A e).
Proof. intros w. reflexivity. Qed.

Lemma quiet_lift {A : Type} (r : result A) : quiet (lift r).
Proof. intros w. reflexivity. Qed.

Lemma quiet_bind {A B : Type} (m : M A) (k : A -> M B) :
  quiet m -> (forall a, quiet (k a)) -> quiet (bind m k).
Proof.
  intros Hm Hk w. unfold bind. specialize (Hm w).
  destruct (m w) as [[a|e] w1]; cbn [snd] in *.
  - rewrite Hk. exact Hm.
  - exact Hm.
Qed.

Lemma quiet_try_except {A : Type} (body : M A) classes handler :
  quiet body -> (forall e, quiet (handler e)) ->
  quiet (try_except body classes handler).
Proof.
  intros Hbody Hhandler w. unfold try_except. specialize (Hbody w).
  destruct (body w) as [[a|e] w1]; cbn [snd] in *.
  - exact Hbody.
  - destruct (classes e); cbn [snd].
    + rewrite Hhandler. exact Hbody.
    + exact Hbody.
Qed.

Lemma quiet_emit (ev : event) : is_write ev = false -> quiet (emit ev).
Proof.
  intros Hev w. unfold emit, writes. cbn [snd trace].
  rewrite filter_app. cbn [filter]. rewrite Hev. apply app_nil_r.
Qed.

Lemma quiet_item0 {A : Type} (l : list A) : quiet (item0 l).
Proof. destruct l; intros w; reflexivity. Qed.

Lemma quiet_if {A : Type} (b : bool) (m1 m2 : M A) :
  quiet m1 -> quiet m2 -> quiet (if b then m1 else m2).
Proof. destruct b; auto. Qed.

Lemma quiet_utcnow env : quiet (utcnow env).
Proof. intros w. reflexivity. Qed.

Create HintDb quiet.

#[local] Hint Resolve quiet_ret quiet_raise quiet_lift quiet_item0
  quiet_utcnow quiet_if quiet_try_except : quiet.
#[local] Hint Extern 2 (quiet (bind _ _)) =>
  apply quiet_bind; [|intros] : quiet.
#[local] Hint Extern 1 (quiet (emit _)) =>
  apply quiet_emit; reflexivity : quiet.
#[local] Hint Extern 3 (quiet (match ?x with _ => _ end)) =>
  destruct x : quiet.

Lemma quiet_service_is_up FLAGS env service :
  quiet (service_is_up FLAGS env service).
Proof. unfold service_is_up. auto with quiet. Qed.

Lemma quiet_rpc_call env queue msg : quiet (rpc_call env queue msg).
Proof. unfold rpc_call. auto with quiet. Qed.

#[local] Hint Resolve quiet_service_is_up quiet_rpc_call : quiet.

Lemma quiet_src_check FLAGS env instance_ref :
  quiet (_live_migration_src_check FLAGS env instance_ref).
Proof.
  unfold _live_migration_src_check, db_service_get_all_by_topic,
    db_service_get_all_compute_by_host.
  auto 20 with quiet.
Qed.

Lemma quiet_has_enough_resources env instance_ref dest :
  quiet (has_enough_resources env instance_ref dest).
Proof.
  unfold has_enough_resources, db_service_get_all_compute_by_host.
  auto 20 with quiet.
Qed.

#[local] Hint Resolve quiet_has_enough_resources : quiet.

Lemma quiet_dest_check FLAGS env instance_ref dest :
  quiet (_live_migration_dest_check FLAGS env instance_ref dest).
Proof.
  unfold _live_migration_dest_check, db_service_get_all_compute_by_host.
  auto 20 with quiet.
Qed.

Lemma quiet_shared_storage FLAGS env instance_ref dest :
  quiet (mounted_on_same_shared_storage FLAGS env instance_ref dest).
Proof.
  unfold mounted_on_same_shared_storage, logging_error.
  cbv zeta. auto 20 with quiet.
Qed.

#[local] Hint Resolve quiet_shared_storage : quiet.

Lemma quiet_common_check FLAGS env instance_ref dest :
  quiet (_live_migration_common_check FLAGS env instance_ref dest).
Proof.
  unfold _live_migration_common_check, db_service_get_all_compute_by_host,
    logging_exception.
  cbv zeta. auto 30 with quiet.
Qed.

Lemma quiet_run {A : Type} (m : M A) w r w' :
  quiet m -> m w = (r, w') -> writes w' = writes w.
Proof. intros Hm Hrun. specialize (Hm w). rewrite Hrun in Hm. exact Hm. Qed.

(** C2: whichever of the three checks fails, [schedule_live_migration]
    fails with that check's error and the repository writes of the trace
    are what they were at the call; and a run that did add a write has been
    through all three checks, none of which wrote, the writes coming after
    them. *)
Theorem failed_check_aborts_before_any_write
        (FLAGS : Flags) (env : Collaborators) (instance_id : Z)
        (dest : string) (instance_ref : Instance.t) (w : World) :
  instance_get env instance_id = OK instance_ref ->
  let run := schedule_live_migration FLAGS env instance_id dest w in
  let src := _live_migration_src_check FLAGS env instance_ref in
  let dst := _live_migration_dest_check FLAGS env instance_ref dest in
  let com := _live_migration_common_check FLAGS env instance_ref dest in
  (forall e w1,
      src w = (Raise e, w1) ->
      run = (Raise e, w1) /\ writes w1 = writes w)
  /\ (forall e w1 w2,
         src w = (OK tt, w1) -> dst w1 = (Raise e, w2) ->
         run = (Raise e, w2) /\ writes w2 = writes w)
  /\ (forall e w1 w2 w3,
         src w = (OK tt, w1) -> dst w1 = (OK tt, w2) ->
         com w2 = (Raise e, w3) ->
         run = (Raise e, w3) /\ writes w3 = writes w)
  /\ (forall r wf,
         run = (r, wf) -> writes wf <> writes w ->
         exists w1 w2 w3,
           src w = (OK tt, w1) /\ dst w1 = (OK tt, w2)
           /\ com w2 = (OK tt, w3)
           /\ writes w3 = writes w
           /\ trace wf
              = trace w3 ++ transition_events instance_id instance_ref).
Proof.
  intros Hget. cbv zeta.
  rewrite (schedule_live_migration_run _ _ _ _ _ _ Hget).
  pose proof (quiet_src_check FLAGS env instance_ref) as Qsrc.
  pose proof (quiet_dest_check FLAGS env instance_ref dest) as Qdst.
  pose proof (quiet_common_check FLAGS env instance_ref dest) as Qcom.
  split; [|split; [|split]].
  - intros e w1 Hsrc. rewrite Hsrc.
    split; [reflexivity|exact (quiet_run _ _ _ _ Qsrc Hsrc)].
  - intros e w1 w2 Hsrc Hdst. rewrite Hsrc, Hdst. split; [reflexivity|].
    rewrite (quiet_run _ _ _ _ Qdst Hdst).
    exact (quiet_run _ _ _ _ Qsrc Hsrc).
  - intros e w1 w2 w3 Hsrc Hdst Hcom. rewrite Hsrc, Hdst, Hcom.
    split; [reflexivity|].
    rewrite (quiet_run _ _ _ _ Qcom Hcom), (quiet_run _ _ _ _ Qdst Hdst).
    exact (quiet_run _ _ _ _ Qsrc Hsrc).
  - intros r wf.
    destruct (_live_migration_src_check _ _ _ _) as [[[]|e] w1] eqn:Hsrc.
    2:{ intros [= <- <-] Hwrote. exfalso. apply Hwrote.
        exact (quiet_run _ _ _ _ Qsrc Hsrc). }
    destruct (_live_migration_dest_check _ _ _ _ _) as [[[]|e] w2] eqn:Hdst.
    2:{ intros [= <- <-] Hwrote. exfalso. apply Hwrote.
        rewrite (quiet_run _ _ _ _ Qdst Hdst).
        exact (quiet_run _ _ _ _ Qsrc Hsrc). }
    destruct (_live_migration_common_check _ _ _ _ _)
      as [[[]|e] w3] eqn:Hcom.
    2:{ intros [= <- <-] Hwrote. exfalso. apply Hwrote.
        rewrite (quiet_run _ _ _ _ Qcom Hcom), (quiet_run _ _ _ _ Qdst Hdst).
        exact (quiet_run _ _ _ _ Qsrc Hsrc). }
    intros [= <- <-] _. exists w1, w2, w3.
    repeat split; try reflexivity; try assumption.
    rewrite (quiet_run _ _ _ _ Qcom Hcom), (quiet_run _ _ _ _ Qdst Hdst).
    exact (quiet_run _ _ _ _ Qsrc Hsrc).
Qed.

(** A destination of another hypervisor type fails the common check, after
    two messages to the agents and before any write. *)
Lemma failed_check_aborts_before_any_write_witness :
  let env := Scenario.fleet Scenario.W
                            [Scenario.serviceA; Scenario.serviceC]
                            Scenario.agents_ok in
  let w3 := {| ticks := 2;
               trace := [RpcCall "compute.C"
                                 {| method := "mktmpfile"; args := None |};
                         RpcCall "compute.A"
                                 {| method := "confirm_tmpfile";
                                    args := Some [("path",
                                                   Scenario.probe_file)] |}]
            |} in
  schedule_live_migration Scenario.FLAGS env 7 "C" Scenario.w0
  = (Raise Invalid, w3)
  /\ writes w3 = writes Scenario.w0.
Proof.
  cbv zeta.
  apply (proj1 (proj2 (proj2
           (failed_check_aborts_before_any_write
              Scenario.FLAGS
              (Scenario.fleet Scenario.W
                              [Scenario.serviceA; Scenario.serviceC]
                              Scenario.agents_ok)
              7 "C" Scenario.W Scenario.w0 eq_refl)))
           Invalid (later 1 Scenario.w0) (later 2 Scenario.w0));
    reflexivity.
Defined.

(** ** The shared-storage probe *)

(** Every run of the probe, by what the two agents answer. *)
Lemma shared_storage_run FLAGS env instance_ref dest w :
  let dst_t := queue_get_for env (compute_topic FLAGS) dest in
  let src_t := queue_get_for env (compute_topic FLAGS)
                             (Instance.host instance_ref) in
  mounted_on_same_shared_storage FLAGS env instance_ref dest w
  = match rpc_reply env dst_t mktmpfile_msg with
    | Raise e =>
        (Raise (if exn_eqb e RemoteError then NameError else e),
         extend w [RpcCall dst_t mktmpfile_msg])
    | OK filename =>
        let sent := [RpcCall dst_t mktmpfile_msg;
                     RpcCall src_t (confirm_tmpfile_msg filename)] in
        match rpc_reply env src_t (confirm_tmpfile_msg filename) with
        | OK _ => (OK tt, extend w sent)
        | Raise e =>
            (Raise e,
             extend w
               (sent ++
                if exn_eqb e RemoteError || exn_eqb e NotFound
                then [LogError ("Cannot comfirm " ++ instances_path FLAGS
                                ++ " at " ++ dest
                                ++ " is located at same shared storage.")]
                else []))
        end
    end.
Proof.
  cbv zeta.
  unfold mounted_on_same_shared_storage, try_except, rpc_call,
    logging_error, emit, lift, bind, ret, raise, extend,
    mktmpfile_msg, confirm_tmpfile_msg.
  destruct (rpc_reply env _ _) as [filename|e].
  - destruct (rpc_reply env _ _) as [v|e].
    + cbn [ticks trace]. rewrite <- app_assoc. reflexivity.
    + destruct (exn_eqb e RemoteError || exn_eqb e NotFound);
        cbn [ticks trace]; rewrite <- ?app_assoc; reflexivity.
  - destruct (exn_eqb e RemoteError); reflexivity.
Qed.

(** C3, as stated, fails: when the source agent answers [confirm_tmpfile]
    with [NotFound], the probe re-raises that [NotFound]; it does not raise
    [Invalid]. *)
Lemma unconfirmed_probe_file_raises_NotFound :
  let env := Scenario.fleet Scenario.W
                            [Scenario.serviceA; Scenario.serviceB]
                            Scenario.no_such_file in
  rpc_reply env "compute.B" mktmpfile_msg = OK Scenario.probe_file
  /\ rpc_reply env "compute.A" (confirm_tmpfile_msg Scenario.probe_file)
     = Raise NotFound
  /\ fst (mounted_on_same_shared_storage Scenario.FLAGS env Scenario.W "B"
                                         Scenario.w0)
     = Raise NotFound
  /\ fst (mounted_on_same_shared_storage Scenario.FLAGS env Scenario.W "B"
                                         Scenario.w0)
     <> Raise Invalid.
Proof. cbv zeta. repeat split. discriminate. Qed.

(** C3, amended: when the destination's [mktmpfile] call fails, the probe
    fails after that one message, without asking the source to confirm
    anything, and with the call's own error when that is not a
    [RemoteError]; when the source answers [confirm_tmpfile] with
    [NotFound], the probe fails with that [NotFound], a kind that is neither
    [RemoteError] nor [Invalid]. *)
Theorem storage_probe_failures
        (FLAGS : Flags) (env : Collaborators) (instance_ref : Instance.t)
        (dest : string) (w : World) :
  let dst_t := queue_get_for env (compute_topic FLAGS) dest in
  let src_t := queue_get_for env (compute_topic FLAGS)
                             (Instance.host instance_ref) in
  let probe := mounted_on_same_shared_storage FLAGS env instance_ref dest w in
  (forall e,
      rpc_reply env dst_t mktmpfile_msg = Raise e ->
      exists e' w',
        probe = (Raise e', w')
        /\ trace w' = trace w ++ [RpcCall dst_t mktmpfile_msg]
        /\ (e <> RemoteError -> e' = e))
  /\ (forall filename,
         rpc_reply env dst_t mktmpfile_msg = OK filename ->
         rpc_reply env src_t (confirm_tmpfile_msg filename)
         = Raise NotFound ->
         exists w',
           probe = (Raise NotFound, w')
           /\ rpcs w'
              = rpcs w ++ [RpcCall dst_t mktmpfile_msg;
                           RpcCall src_t (confirm_tmpfile_msg filename)])
  /\ NotFound <> RemoteError
  /\ NotFound <> Invalid.
Proof.
  cbv zeta. rewrite shared_storage_run. cbv zeta.
  split; [|split; [|split; discriminate]].
  - intros e He. rewrite He. eexists _, _. split; [reflexivity|].
    split; [reflexivity|].
    intros Hne. destruct e; try reflexivity. congruence.
  - intros filename Hmk Hconfirm. rewrite Hmk, Hconfirm.
    eexists. split; [reflexivity|].
    unfold rpcs, extend. cbn [trace exn_eqb orb].
    rewrite filter_app. reflexivity.
Qed.

Lemma storage_probe_failures_witness :
  exists w',
    mounted_on_same_shared_storage
      Scenario.FLAGS
      (Scenario.fleet Scenario.W [Scenario.serviceA; Scenario.serviceB]
                      Scenario.no_such_file)
      Scenario.W "B" Scenario.w0
    = (Raise NotFound, w')
    /\ rpcs w'
       = rpcs Scenario.w0
         ++ [RpcCall "compute.B" mktmpfile_msg;
             RpcCall "compute.A" (confirm_tmpfile_msg Scenario.probe_file)].
Proof.
  apply (proj1 (proj2 (storage_probe_failures
                         Scenario.FLAGS
                         (Scenario.fleet Scenario.W
                                         [Scenario.serviceA;
                                          Scenario.serviceB]
                                         Scenario.no_such_file)
                         Scenario.W "B" Scenario.w0))
           Scenario.probe_file eq_refl eq_refl).
Defined.

(** The handler of the first [try] never gets to its [raise]: a
    [RemoteError] from [mktmpfile] comes out of the probe as the
    [NameError] of the unbound [LOG]. *)
Example mktmpfile_RemoteError_becomes_NameError :
  mounted_on_same_shared_storage
    Scenario.FLAGS
    (Scenario.fleet Scenario.W [Scenario.serviceA; Scenario.serviceB]
                    Scenario.mktmpfile_fails)
    Scenario.W "B" Scenario.w0
  = (Raise NameError,
     extend Scenario.w0 [RpcCall "compute.B" mktmpfile_msg]).
Proof. reflexivity. Qed.

(** ** End to end *)







(** * Further properties of the driver *)

(** ** The checks that stay local *)

Lemma local_reads_ret {A : Type} (a : A) : local_reads 0 (ret a).
Proof. intros w. cbn. repeat split; lia. Qed.

Lemma local_reads_raise {A : Type} (e : exn) : local_reads 0 (@raise A e).
Proof. intros w. cbn. repeat split; lia. Qed.

Lemma local_reads_lift {A : Type} (r : result A) : local_reads 0 (lift r).
Proof. intros w. cbn. repeat split; lia. Qed.

Lemma local_reads_item0 {A : Type} (l : list A) : local_reads 0 (item0 l).
Proof. destruct l; intros w; cbn; repeat split; lia. Qed.

Lemma local_reads_weaken {A : Type} (n k : nat) (m : M A) :
  (n <= k)%nat -> local_reads n m -> local_reads k m.
Proof.
  intros Hle Hm w. destruct (Hm w) as (Htrace & Hlo & Hhi).
  repeat split; [exact Htrace|exact Hlo|lia].
Qed.

Lemma local_reads_bind {A B : Type} (n k : nat) (m : M A) (f : A -> M B) :
  local_reads n m -> (forall a, local_reads k (f a)) ->
  local_reads (n + k) (bind m f).
Proof.
  intros Hm Hf w. unfold bind.
  destruct (Hm w) as (Htrace & Hlo & Hhi).
  destruct (m w) as [[a|e] w1]; cbn [snd] in *.
  - destruct (Hf a w1) as (Htrace' & Hlo' & Hhi').
    repeat split; [congruence|lia|lia].
  - repeat split; [exact Htrace|lia|lia].
Qed.

Lemma local_reads_if {A : Type} (n : nat) (b : bool) (m1 m2 : M A) :
  local_reads n m1 -> local_reads n m2 ->
  local_reads n (if b then m1 else m2).
Proof. destruct b; auto. Qed.

Lemma local_reads_service_is_up FLAGS env service :
  local_reads 1 (service_is_up FLAGS env service).
Proof. intros w. cbn. repeat split; lia. Qed.

Lemma local_reads_has_enough_resources env instance_ref dest :
  local_reads 0 (has_enough_resources env instance_ref dest).
Proof.
  unfold has_enough_resources, db_service_get_all_compute_by_host.
  apply (local_reads_bind 0 0); [apply local_reads_lift|intros refs].
  apply (local_reads_bind 0 0); [apply local_reads_item0|intros ref].
  apply (local_reads_bind 0 0); [apply local_reads_item0|intros node].
  cbv zeta.
  apply local_reads_if; [apply local_reads_raise|apply local_reads_ret].
Qed.

Lemma local_reads_dest_check FLAGS env instance_ref dest :
  local_reads 1 (_live_migration_dest_check FLAGS env instance_ref dest).
Proof.
  unfold _live_migration_dest_check, db_service_get_all_compute_by_host.
  apply (local_reads_bind 0 1); [apply local_reads_lift|intros refs].
  apply (local_reads_bind 0 1); [apply local_reads_item0|intros ref].
  apply (local_reads_bind 1 0); [apply local_reads_service_is_up|intros up].
  apply (local_reads_bind 0 0);
    [apply local_reads_if; [apply local_reads_raise|apply local_reads_ret]|].
  intros _. cbv zeta.
  apply (local_reads_bind 0 0);
    [apply local_reads_if; [apply local_reads_raise|apply local_reads_ret]|].
  intros _. apply local_reads_has_enough_resources.
Qed.

Lemma local_reads_src_check FLAGS env instance_ref :
  local_reads 2 (_live_migration_src_check FLAGS env instance_ref).
Proof.
  unfold _live_migration_src_check, db_service_get_all_by_topic,
    db_service_get_all_compute_by_host.
  apply (local_reads_bind 0 2);
    [apply local_reads_if; [apply local_reads_raise|apply local_reads_ret]|].
  intros _.
  apply (local_reads_bind 1 1).
  - apply local_reads_if; [|apply (local_reads_weaken 0); [lia|]; apply local_reads_ret].
    apply (local_reads_bind 0 1); [apply local_reads_ret|intros services].
    apply (local_reads_bind 1 0).
    + apply local_reads_if;
        [apply (local_reads_weaken 0); [lia|]; apply local_reads_ret|].
      apply (local_reads_bind 0 1); [apply local_reads_item0|intros first].
      apply (local_reads_bind 1 0);
        [apply local_reads_service_is_up|intros up; apply local_reads_ret].
    + intros unreachable.
      apply local_reads_if; [apply local_reads_raise|apply local_reads_ret].
  - intros _. cbv zeta.
    apply (local_reads_bind 0 1); [apply local_reads_lift|intros services].
    apply (local_reads_bind 0 1); [apply local_reads_item0|intros first].
    apply (local_reads_bind 1 0); [apply local_reads_service_is_up|intros up].
    apply local_reads_if; [apply local_reads_raise|apply local_reads_ret].
Qed.

(** X1: the source check, the destination check and the capacity check are
    local decisions.  Whatever they are given and whether they return or
    raise, they add nothing to the trace (no message, no write, no log
    line); the source check reads the clock at most twice, the destination
    check at most once and the capacity check never. *)
Theorem checks_before_the_probe_are_local
        (FLAGS : Flags) (env : Collaborators) (instance_ref : Instance.t)
        (dest : string) (w : World) :
  let after_src := snd (_live_migration_src_check FLAGS env instance_ref w) in
  let after_dst :=
    snd (_live_migration_dest_check FLAGS env instance_ref dest w) in
  let after_cap := snd (has_enough_resources env instance_ref dest w) in
  (trace after_src = trace w
   /\ (ticks w <= ticks after_src <= 2 + ticks w)%nat)
  /\ (trace after_dst = trace w
      /\ (ticks w <= ticks after_dst <= 1 + ticks w)%nat)
  /\ after_cap = w.
Proof.
  cbv zeta. split; [|split].
  - apply local_reads_src_check.
  - apply local_reads_dest_check.
  - destruct (local_reads_has_enough_resources env instance_ref dest w)
      as (Htrace & Hlo & Hhi).
    destruct (snd _) as [t tr], w as [t0 tr0]. cbn in *. f_equal; [lia|auto].
Qed.

(** ** More on liveness *)

(** X2: being up is monotone.  A service reported up stays up when judged
    at an earlier (or the same) clock reading, with a heartbeat at least as
    recent, under a threshold at least as large that [datetime.timedelta]
    still accepts. *)
Theorem service_is_up_monotone
        (FLAGS FLAGS' : Flags) (env env' : Collaborators)
        (service service' : Service.t) (w w' : World) :
  clock env' (ticks w') <= clock env (ticks w) ->
  last_heartbeat service <= last_heartbeat service' ->
  service_down_time FLAGS <= service_down_time FLAGS' ->
  timedelta_fits (service_down_time FLAGS') = true ->
  fst (Exact.service_is_up FLAGS env service w) = OK true ->
  fst (Exact.service_is_up FLAGS' env' service' w') = OK true.
Proof.
  intros Hclock Hbeat Hthreshold Hfits.
  rewrite !exact_service_is_up_run, Hfits.
  destruct (timedelta_fits (service_down_time FLAGS)); [|discriminate].
  cbn [fst]. unfold up_at, timedelta_seconds.
  intros [= Hup]. f_equal.
  apply Z.ltb_lt in Hup. apply Z.ltb_lt. lia.
Qed.

Lemma service_is_up_monotone_witness :
  fst (Exact.service_is_up Scenario.FLAGS
                           (with_clock Scenario.calm
                                       (fun _ => timedelta_seconds 120))
                           Scenario.serviceA Scenario.w0)
  = OK true.
Proof.
  apply (service_is_up_monotone
           Scenario.FLAGS Scenario.FLAGS Scenario.calm
           (with_clock Scenario.calm (fun _ => timedelta_seconds 120))
           Scenario.serviceA Scenario.serviceA Scenario.w0 Scenario.w0).
  - vm_compute. discriminate.
  - vm_compute. discriminate.
  - vm_compute. discriminate.
  - reflexivity.
  - reflexivity.
Defined.

(** X3: a heartbeat that is not in the past (the reporting host's clock runs
    ahead) counts as up under any positive threshold that
    [datetime.timedelta] accepts, the elapsed time being zero or negative;
    and under an accepted threshold of zero or less no service whose
    heartbeat is not in the future is ever up. *)
Theorem service_is_up_at_skewed_clock
        (FLAGS : Flags) (env : Collaborators) (service : Service.t)
        (w : World) :
  let now := clock env (ticks w) in
  (timedelta_fits (service_down_time FLAGS) = true ->
   0 < service_down_time FLAGS -> now <= last_heartbeat service ->
   Exact.service_is_up FLAGS env service w = (OK true, later 1 w))
  /\ (timedelta_fits (service_down_time FLAGS) = true ->
      service_down_time FLAGS <= 0 -> last_heartbeat service <= now ->
      Exact.service_is_up FLAGS env service w = (OK false, later 1 w)).
Proof.
  cbv zeta. rewrite exact_service_is_up_run. unfold up_at, timedelta_seconds.
  split; intros -> Hthreshold Hbeat; do 2 f_equal.
  - apply Z.ltb_lt. lia.
  - apply Z.ltb_ge. lia.
Qed.

Lemma service_is_up_at_skewed_clock_witness :
  Exact.service_is_up Scenario.FLAGS
                      (with_clock Scenario.calm
                                  (fun _ => timedelta_seconds 90))
                      Scenario.serviceA Scenario.w0
  = (OK true, later 1 Scenario.w0).
Proof.
  apply (proj1 (service_is_up_at_skewed_clock
                  Scenario.FLAGS
                  (with_clock Scenario.calm (fun _ => timedelta_seconds 90))
                  Scenario.serviceA Scenario.w0)).
  - reflexivity.
  - reflexivity.
  - vm_compute. discriminate.
Defined.

(** ** More on host enumeration *)






(** ** More on the source and destination checks *)

(** A source check that returns has found a compute record for the
    workload's host. *)
Lemma src_check_OK_inv FLAGS env instance_ref w w1 :
  _live_migration_src_check FLAGS env instance_ref w = (OK tt, w1) ->
  exists first others,
    service_get_all_compute_by_host env (Instance.host instance_ref)
    = OK (first :: others).
Proof.
  unfold _live_migration_src_check, db_service_get_all_compute_by_host.
  cbv zeta. unfold bind at 1.
  destruct (_ || _); [discriminate|]. unfold ret at 1.
  unfold bind at 1.
  match goal with
  | |- context [(if ?c then ?m else ret tt) w] =>
      destruct ((if c then m else ret tt) w) as [[[]|e] w2]
  end; [|discriminate].
  unfold bind at 1. unfold lift at 1.
  destruct (service_get_all_compute_by_host env _) as [[|first others]|e];
    [discriminate| |discriminate].
  intros _. exists first, others. reflexivity.
Qed.

(** The destination check once the destination's first compute record is in
    hand. *)
Lemma dest_check_run FLAGS env instance_ref dest first others w :
  service_get_all_compute_by_host env dest = OK (first :: others) ->
  _live_migration_dest_check FLAGS env instance_ref dest w
  = if negb (up_at FLAGS (clock env (ticks w)) first)
    then (Raise Invalid, later 1 w)
    else if (dest =? Instance.host instance_ref)%string
         then (Raise Invalid, later 1 w)
         else has_enough_resources env instance_ref dest (later 1 w).
Proof.
  intros Hdest.
  unfold _live_migration_dest_check, db_service_get_all_compute_by_host.
  unfold bind at 1. unfold lift at 1. rewrite Hdest.
  unfold bind at 1. unfold item0, ret at 1.
  rewrite (bind_OK _ _ _ _ _ (service_is_up_run FLAGS env first w)).
  destruct (up_at FLAGS (clock env (ticks w)) first); cbn [negb];
    [|reflexivity].
  unfold bind at 1. unfold ret at 1. cbv zeta.
  destruct (dest =? Instance.host instance_ref)%string; reflexivity.
Qed.

(** X6: a workload is never migrated to the host it is on.  With the
    destination equal to the current host the call always raises, leaving
    the trace as it was (no message, no write), and once the source check
    has passed the error is [Invalid], whether the host's service is still
    fresh at the second look or not. *)
Theorem self_migration_is_refused
        (FLAGS : Flags) (env : Collaborators) (instance_id : Z)
        (instance_ref : Instance.t) (w : World) :
  instance_get env instance_id = OK instance_ref ->
  exists e w',
    schedule_live_migration FLAGS env instance_id
                            (Instance.host instance_ref) w
    = (Raise e, w')
    /\ trace w' = trace w
    /\ (forall w1,
           _live_migration_src_check FLAGS env instance_ref w = (OK tt, w1) ->
           e = Invalid).
Proof.
  intros Hget.
  rewrite (schedule_live_migration_run _ _ _ _ _ _ Hget).
  pose proof (local_reads_src_check FLAGS env instance_ref w) as (Htr & _).
  destruct (_live_migration_src_check FLAGS env instance_ref w)
    as [[[]|e] w1] eqn:Hsrc; cbn [snd] in Htr.
  - destruct (src_check_OK_inv _ _ _ _ _ Hsrc) as (first & others & Hhost).
    rewrite (dest_check_run _ _ _ _ _ _ _ Hhost).
    rewrite String.eqb_refl.
    exists Invalid, (later 1 w1).
    split; [destruct (negb _); reflexivity|].
    split; [exact Htr|reflexivity].
  - exists e, w1. split; [reflexivity|]. split; [exact Htr|].
    intros w2 [=].
Qed.

Lemma self_migration_is_refused_witness :
  exists e w',
    schedule_live_migration Scenario.FLAGS Scenario.calm 7
                            (Instance.host Scenario.W) Scenario.w0
    = (Raise e, w')
    /\ trace w' = trace Scenario.w0
    /\ (forall w1,
           _live_migration_src_check Scenario.FLAGS Scenario.calm Scenario.W
                                     Scenario.w0
           = (OK tt, w1) ->
           e = Invalid).
Proof.
  apply (self_migration_is_refused
           Scenario.FLAGS Scenario.calm 7 Scenario.W Scenario.w0).
  reflexivity.
Defined.

(** X7: a destination the repository has no compute service for is reported
    with the repository's own error ([NotFound]), not with [Invalid]: once
    the source check has passed, the error raised by the lookup of the
    destination is the error of the call, which ends where the source check
    ended, before any message or write. *)
Theorem unknown_destination_raises_lookup_error
        (FLAGS : Flags) (env : Collaborators) (instance_id : Z)
        (dest : string) (instance_ref : Instance.t) (e : exn)
        (w w1 : World) :
  instance_get env instance_id = OK instance_ref ->
  _live_migration_src_check FLAGS env instance_ref w = (OK tt, w1) ->
  service_get_all_compute_by_host env dest = Raise e ->
  schedule_live_migration FLAGS env instance_id dest w = (Raise e, w1)
  /\ trace w1 = trace w.
Proof.
  intros Hget Hsrc Hdest.
  rewrite (schedule_live_migration_run _ _ _ _ _ _ Hget), Hsrc.
  pose proof (local_reads_src_check FLAGS env instance_ref w) as (Htr & _).
  rewrite Hsrc in Htr. split; [|exact Htr].
  unfold _live_migration_dest_check, db_service_get_all_compute_by_host.
  unfold bind at 1. unfold lift at 1. rewrite Hdest. reflexivity.
Qed.

Lemma unknown_destination_raises_lookup_error_witness :
  schedule_live_migration Scenario.FLAGS Scenario.calm 7 "Z" Scenario.w0
  = (Raise NotFound, later 1 Scenario.w0)
  /\ trace (later 1 Scenario.w0) = trace Scenario.w0.
Proof.
  apply (unknown_destination_raises_lookup_error
           Scenario.FLAGS Scenario.calm 7 "Z" Scenario.W NotFound
           Scenario.w0 (later 1 Scenario.w0));
    reflexivity.
Defined.



Lemma has_enough_resources_empty_run
      (env : Collaborators) (instance_ref : Instance.t) (dest : string)
      (w : World) :
  (service_get_all_compute_by_host env dest = OK [] ->
   has_enough_resources env instance_ref dest w = (Raise IndexError, w))
  /\ (forall first others,
         service_get_all_compute_by_host env dest = OK (first :: others) ->
         Service.compute_service first = [] ->
         has_enough_resources env instance_ref dest w
         = (Raise IndexError, w)).
Proof.
  unfold has_enough_resources, db_service_get_all_compute_by_host,
    bind, lift, item0, ret, raise.
  split.
  - intros ->. reflexivity.
  - intros first others -> ->. reflexivity.
Qed.

(** X9: records that are there but empty surface as Python's [IndexError],
    not as one of the driver's own errors.  The capacity check raises
    [IndexError], in the world it was called in, when the repository
    answers the lookup of the destination with an empty list, and when the
    first service record has no compute-node row. *)
Theorem has_enough_resources_on_empty_records
        (env : Collaborators) (instance_ref : Instance.t) (dest : string)
        (w : World) :
  (service_get_all_compute_by_host env dest = OK [] ->
   has_enough_resources env instance_ref dest w = (Raise IndexError, w))
  /\ (forall first others,
         service_get_all_compute_by_host env dest = OK (first :: others) ->
         Service.compute_service first = [] ->
         has_enough_resources env instance_ref dest w
         = (Raise IndexError, w)).
Proof. apply has_enough_resources_empty_run. Qed.

Lemma has_enough_resources_on_empty_records_witness :
  has_enough_resources
    (Scenario.fleet Scenario.W
                    [Scenario.service_on "B" "compute" 100 []]
                    Scenario.agents_ok)
    Scenario.W "B" Scenario.w0
  = (Raise IndexError, Scenario.w0).
Proof.
  apply (proj2 (has_enough_resources_on_empty_records
                  (Scenario.fleet Scenario.W
                                  [Scenario.service_on "B" "compute" 100 []]
                                  Scenario.agents_ok)
                  Scenario.W "B" Scenario.w0)
           (Scenario.service_on "B" "compute" 100 []) []);
    reflexivity.
Defined.

(** X10: of the errors the lookup of the launch host can raise, the common
    check turns [NotFound], and only [NotFound], into [Invalid]; any other
    error comes out as it is.  The lookup of the destination just before it
    is not guarded: its error, [NotFound] included, comes out as it is. *)
Theorem common_check_on_missing_hosts
        (FLAGS : Flags) (env : Collaborators) (instance_ref : Instance.t)
        (dest : string) (w w1 : World) :
  mounted_on_same_shared_storage FLAGS env instance_ref dest w
  = (OK tt, w1) ->
  let check := _live_migration_common_check FLAGS env instance_ref dest w in
  (forall e,
      service_get_all_compute_by_host env dest = Raise e ->
      check = (Raise e, w1))
  /\ (forall dfirst drest dnode dnodes e,
         service_get_all_compute_by_host env dest = OK (dfirst :: drest) ->
         Service.compute_service dfirst = dnode :: dnodes ->
         service_get_all_compute_by_host
           env (Instance.launched_on instance_ref)
         = Raise e ->
         check = (Raise (if exn_eqb e NotFound then Invalid else e), w1)).
Proof.
  intros Hprobe. cbv zeta.
  unfold _live_migration_common_check.
  rewrite (bind_OK _ _ _ _ _ Hprobe).
  unfold db_service_get_all_compute_by_host, try_except, lift, bind,
    item0, ret, raise.
  split.
  - intros e ->. reflexivity.
  - intros dfirst drest dnode dnodes e -> -> ->.
    destruct (exn_eqb e NotFound); reflexivity.
Qed.

Lemma common_check_on_missing_hosts_witness :
  _live_migration_common_check
    Scenario.FLAGS
    (Scenario.fleet Scenario.W_moved [Scenario.serviceA; Scenario.serviceB]
                    Scenario.agents_ok)
    Scenario.W_moved "B" Scenario.w0
  = (Raise Invalid,
     extend Scenario.w0
            [RpcCall "compute.B" mktmpfile_msg;
             RpcCall "compute.A" (confirm_tmpfile_msg Scenario.probe_file)]).
Proof.
  apply (proj2 (common_check_on_missing_hosts
                  Scenario.FLAGS
                  (Scenario.fleet Scenario.W_moved
                                  [Scenario.serviceA; Scenario.serviceB]
                                  Scenario.agents_ok)
                  Scenario.W_moved "B" Scenario.w0 _ eq_refl)
           Scenario.serviceB [] Scenario.nodeB [] NotFound);
    reflexivity.
Defined.

Lemma bind_ext_k {A B : Type} (m : M A) (k k' : A -> M B) w :
  (forall a w', k a w' = k' a w') -> bind m k w = bind m k' w.
Proof.
  intros Hk. unfold bind. destruct (m w) as [[a|e] w']; [apply Hk|reflexivity].
Qed.

Lemma bind_ret_l {A B : Type} (a : A) (k : A -> M B) w :
  bind (ret a) k w = k a w.
Proof. reflexivity. Qed.

Lemma bind_ext_m {A B : Type} (m m' : M A) (k : A -> M B) :
  (forall w, m w = m' w) -> forall w, bind m k w = bind m' k w.
Proof. intros Hm w. unfold bind. rewrite Hm. reflexivity. Qed.

(** X11: of the volume services only the first one the repository returns
    is looked at.  The source check of any workload gives the same result
    under two repositories that agree on the first record of topic "volume"
    (or on there being none), however the rest of their lists differ: a
    fresh service further down the list does not make up for a stale first
    one. *)
Theorem src_check_consults_one_volume_service
        (FLAGS : Flags) (env : Collaborators) (instance_ref : Instance.t)
        (by_topic : string -> list Service.t) (w : World) :
  hd_error (by_topic "volume")
  = hd_error (service_get_all_by_topic env "volume") ->
  _live_migration_src_check FLAGS (with_topic_services env by_topic)
                            instance_ref w
  = _live_migration_src_check FLAGS env instance_ref w.
Proof.
  intros Hhead.
  unfold _live_migration_src_check.
  apply bind_ext_k. intros _ w1.
  apply bind_ext_m. intros w2.
  destruct (negb _); [|reflexivity].
  unfold db_service_get_all_by_topic.
  cbn [with_topic_services service_get_all_by_topic].
  rewrite !bind_ret_l.
  destruct (by_topic "volume") as [|first others],
           (service_get_all_by_topic env "volume") as [|first' others'];
    cbn [hd_error] in Hhead; try discriminate; [reflexivity|].
  injection Hhead as ->.
  cbn [List.length].
  replace (Z.of_nat (S (List.length others)) <? 1) with false
    by (symmetry; apply Z.ltb_ge; lia).
  replace (Z.of_nat (S (List.length others')) <? 1) with false
    by (symmetry; apply Z.ltb_ge; lia).
  reflexivity.
Qed.

Lemma src_check_consults_one_volume_service_witness :
  let stale := Scenario.service_on "V1" "volume" 20 [] in
  let fresh := Scenario.service_on "V2" "volume" 100 [] in
  let env := Scenario.fleet Scenario.W_attached
                            [stale; Scenario.serviceA; Scenario.serviceB]
                            Scenario.agents_ok in
  _live_migration_src_check Scenario.FLAGS
                            (with_topic_services env (fun _ => [stale; fresh]))
                            Scenario.W_attached Scenario.w0
  = _live_migration_src_check Scenario.FLAGS env Scenario.W_attached
                              Scenario.w0.
Proof.
  cbv zeta.
  apply (src_check_consults_one_volume_service
           Scenario.FLAGS
           (Scenario.fleet Scenario.W_attached
                           [Scenario.service_on "V1" "volume" 20 [];
                            Scenario.serviceA; Scenario.serviceB]
                           Scenario.agents_ok)
           Scenario.W_attached
           (fun _ => [Scenario.service_on "V1" "volume" 20 [];
                      Scenario.service_on "V2" "volume" 100 []])
           Scenario.w0).
  reflexivity.
Defined.

(** ** More on the shared-storage probe *)

(** X12: the probe passes exactly when the destination answers [mktmpfile]
    with a path and the source answers [confirm_tmpfile] for that very path
    without raising.  What the source answers is not looked at.  A passing
    probe has sent these two messages and nothing else, and has logged
    nothing. *)
Theorem storage_probe_passes_iff_both_agents_answer
        (FLAGS : Flags) (env : Collaborators) (instance_ref : Instance.t)
        (dest : string) (w : World) :
  let dst_t := queue_get_for env (compute_topic FLAGS) dest in
  let src_t := queue_get_for env (compute_topic FLAGS)
                             (Instance.host instance_ref) in
  let probe := mounted_on_same_shared_storage FLAGS env instance_ref dest w in
  (fst probe = OK tt <->
   exists filename confirmed,
     rpc_reply env dst_t mktmpfile_msg = OK filename
     /\ rpc_reply env src_t (confirm_tmpfile_msg filename) = OK confirmed)
  /\ (forall filename confirmed,
         rpc_reply env dst_t mktmpfile_msg = OK filename ->
         rpc_reply env src_t (confirm_tmpfile_msg filename) = OK confirmed ->
         probe = (OK tt,
                  extend w [RpcCall dst_t mktmpfile_msg;
                            RpcCall src_t (confirm_tmpfile_msg filename)])).
Proof.
  cbv zeta. rewrite shared_storage_run. cbv zeta. split.
  - split.
    + destruct (rpc_reply env _ mktmpfile_msg) as [filename|e];
        [|discriminate].
      destruct (rpc_reply env _ (confirm_tmpfile_msg filename))
        as [confirmed|e] eqn:Hconfirm; [|discriminate].
      intros _. exists filename, confirmed. split; [reflexivity|assumption].
    + intros (filename & confirmed & -> & ->). reflexivity.
  - intros filename confirmed -> ->. reflexivity.
Qed.

Lemma storage_probe_passes_iff_both_agents_answer_witness :
  mounted_on_same_shared_storage Scenario.FLAGS Scenario.calm Scenario.W
                                 "B" Scenario.w0
  = (OK tt,
     extend Scenario.w0
            [RpcCall "compute.B" mktmpfile_msg;
             RpcCall "compute.A" (confirm_tmpfile_msg Scenario.probe_file)]).
Proof.
  apply (proj2 (storage_probe_passes_iff_both_agents_answer
                  Scenario.FLAGS Scenario.calm Scenario.W "B" Scenario.w0)
           Scenario.probe_file "");
    reflexivity.
Defined.

(** X13: when [confirm_tmpfile] raises, the probe raises the same error,
    whatever its class, after the two messages; it writes one error line to
    the log when the class is [RemoteError] or [NotFound] and none
    otherwise. *)
Theorem storage_probe_reraises_confirm_error
        (FLAGS : Flags) (env : Collaborators) (instance_ref : Instance.t)
        (dest filename : string) (e : exn) (w : World) :
  let dst_t := queue_get_for env (compute_topic FLAGS) dest in
  let src_t := queue_get_for env (compute_topic FLAGS)
                             (Instance.host instance_ref) in
  rpc_reply env dst_t mktmpfile_msg = OK filename ->
  rpc_reply env src_t (confirm_tmpfile_msg filename) = Raise e ->
  exists logged,
    mounted_on_same_shared_storage FLAGS env instance_ref dest w
    = (Raise e,
       extend w ([RpcCall dst_t mktmpfile_msg;
                  RpcCall src_t (confirm_tmpfile_msg filename)] ++ logged))
    /\ (e = RemoteError \/ e = NotFound ->
        logged = [LogError ("Cannot comfirm " ++ instances_path FLAGS
                            ++ " at " ++ dest
                            ++ " is located at same shared storage.")])
    /\ (e <> RemoteError -> e <> NotFound -> logged = []).
Proof.
  cbv zeta. intros Hmk Hconfirm.
  rewrite shared_storage_run. cbv zeta. rewrite Hmk, Hconfirm.
  eexists. split; [reflexivity|]. split.
  - intros [->| ->]; reflexivity.
  - intros H1 H2. destruct e; try reflexivity; congruence.
Qed.

Lemma storage_probe_reraises_confirm_error_witness :
  exists logged,
    mounted_on_same_shared_storage
      Scenario.FLAGS
      (Scenario.fleet Scenario.W [Scenario.serviceA; Scenario.serviceB]
                      Scenario.no_such_file)
      Scenario.W "B" Scenario.w0
    = (Raise NotFound,
       extend Scenario.w0
              ([RpcCall "compute.B" mktmpfile_msg;
                RpcCall "compute.A"
                        (confirm_tmpfile_msg Scenario.probe_file)]
               ++ logged))
    /\ (NotFound = RemoteError \/ NotFound = NotFound ->
        logged = [LogError ("Cannot comfirm "
                            ++ instances_path Scenario.FLAGS
                            ++ " at " ++ "B"
                            ++ " is located at same shared storage.")])
    /\ (NotFound <> RemoteError -> NotFound <> NotFound -> logged = []).
Proof.
  apply (storage_probe_reraises_confirm_error
           Scenario.FLAGS
           (Scenario.fleet Scenario.W [Scenario.serviceA; Scenario.serviceB]
                           Scenario.no_such_file)
           Scenario.W "B" Scenario.probe_file NotFound Scenario.w0);
    reflexivity.
Defined.

(** X14: a [RemoteError] from the destination's [mktmpfile] does not come
    out of the probe.  The handler that catches it evaluates [LOG.error],
    [LOG] is not bound in the module, and the probe raises [NameError]
    after that one message, having logged nothing. *)
Theorem storage_probe_masks_mktmpfile_RemoteError
        (FLAGS : Flags) (env : Collaborators) (instance_ref : Instance.t)
        (dest : string) (w : World) :
  rpc_reply env (queue_get_for env (compute_topic FLAGS) dest) mktmpfile_msg
  = Raise RemoteError ->
  mounted_on_same_shared_storage FLAGS env instance_ref dest w
  = (Raise NameError,
     extend w [RpcCall (queue_get_for env (compute_topic FLAGS) dest)
                       mktmpfile_msg]).
Proof.
  intros Hmk. rewrite shared_storage_run. cbv zeta. rewrite Hmk.
  reflexivity.
Qed.

Lemma storage_probe_masks_mktmpfile_RemoteError_witness :
  mounted_on_same_shared_storage
    Scenario.FLAGS
    (Scenario.fleet Scenario.W [Scenario.serviceA; Scenario.serviceB]
                    Scenario.mktmpfile_fails)
    Scenario.W "B" Scenario.w0
  = (Raise NameError,
     extend Scenario.w0 [RpcCall "compute.B" mktmpfile_msg]).
Proof.
  apply (storage_probe_masks_mktmpfile_RemoteError
           Scenario.FLAGS
           (Scenario.fleet Scenario.W [Scenario.serviceA; Scenario.serviceB]
                           Scenario.mktmpfile_fails)
           Scenario.W "B" Scenario.w0).
  reflexivity.
Defined.

(** ** The messages and writes of a whole call *)

Lemma rpcs_extend w events :
  rpcs (extend w events) = rpcs w ++ filter is_rpc events.
Proof. unfold rpcs, extend. cbn [trace]. apply filter_app. Qed.

Lemma rpcs_transition_events instance_id instance_ref :
  filter is_rpc (transition_events instance_id instance_ref) = [].
Proof.
  unfold transition_events. cbn [filter is_rpc].
  induction (Instance.volumes instance_ref) as [|v vs IH];
    [reflexivity|exact IH].
Qed.

Lemma writes_transition_events instance_id instance_ref :
  filter is_write (transition_events instance_id instance_ref)
  = transition_events instance_id instance_ref.
Proof.
  unfold transition_events. cbn [filter is_write]. f_equal.
  induction (Instance.volumes instance_ref) as [|v vs IH];
    [reflexivity|cbn [map filter is_write]; f_equal; exact IH].
Qed.

(** What the common check has sent when it ends: a prefix of the three
    messages, all three when it returns. *)
Lemma common_check_messages FLAGS env instance_ref dest w r w' :
  let dst_t := queue_get_for env (compute_topic FLAGS) dest in
  let src_t := queue_get_for env (compute_topic FLAGS)
                             (Instance.host instance_ref) in
  _live_migration_common_check FLAGS env instance_ref dest w = (r, w') ->
  exists (n : nat) (filename cpu : string),
    rpcs w' = rpcs w ++ firstn n (pipeline_messages dst_t src_t filename cpu)
    /\ (r = OK tt -> n = 3%nat)
    /\ ticks w' = ticks w.
Proof.
  cbv zeta. unfold _live_migration_common_check.
  unfold bind at 1. rewrite shared_storage_run. cbv zeta.
  destruct (rpc_reply env _ mktmpfile_msg) as [filename|e].
  2:{ intros [= <- <-]. exists 1%nat, "", "". rewrite rpcs_extend.
      split; [reflexivity|split; [discriminate|reflexivity]]. }
  destruct (rpc_reply env _ (confirm_tmpfile_msg filename)) as [confirmed|e].
  2:{ intros [= <- <-]. exists 2%nat, filename, "". rewrite rpcs_extend.
      split; [|split; [discriminate|reflexivity]]. f_equal.
      destruct (_ || _); reflexivity. }
  set (w1 := extend w _).
  assert (Hw1 : forall cpu,
             rpcs w1 = rpcs w
                       ++ firstn 2 (pipeline_messages
                                      (queue_get_for env (compute_topic FLAGS)
                                                     dest)
                                      (queue_get_for env (compute_topic FLAGS)
                                                     (Instance.host
                                                        instance_ref))
                                      filename cpu)).
  { intros cpu. unfold w1. rewrite rpcs_extend. reflexivity. }
  assert (Ht1 : ticks w1 = ticks w) by reflexivity.
  clearbody w1.
  unfold db_service_get_all_compute_by_host, try_except, rpc_call,
    logging_exception, emit, lift, bind, item0, ret, raise.
  destruct (service_get_all_compute_by_host env dest)
    as [[|dfirst drest]|e];
    try (intros [= <- <-]; exists 2%nat, filename, "";
         split; [apply Hw1|split; [discriminate|exact Ht1]]).
  destruct (Service.compute_service dfirst) as [|dnode dnodes];
    try (intros [= <- <-]; exists 2%nat, filename, "";
         split; [apply Hw1|split; [discriminate|exact Ht1]]).
  destruct (service_get_all_compute_by_host env _) as [[|ofirst orest]|e];
    try (intros [= <- <-]; exists 2%nat, filename, "";
         split; [apply Hw1|split; [discriminate|exact Ht1]]).
  2:{ destruct (exn_eqb e NotFound); intros [= <- <-];
        exists 2%nat, filename, ""; (split; [apply Hw1|split; [discriminate|exact Ht1]]). }
  destruct (Service.compute_service ofirst) as [|onode onodes];
    try (intros [= <- <-]; exists 2%nat, filename, "";
         split; [apply Hw1|split; [discriminate|exact Ht1]]).
  destruct (negb _);
    try (intros [= <- <-]; exists 2%nat, filename, "";
         split; [apply Hw1|split; [discriminate|exact Ht1]]).
  destruct (_ >? _);
    try (intros [= <- <-]; exists 2%nat, filename, "";
         split; [apply Hw1|split; [discriminate|exact Ht1]]).
  cbn [ticks trace].
  destruct (rpc_reply env _ _) as [compatible|e].
  - intros [= <- <-]. exists 3%nat, filename, (ComputeNode.cpu_info onode).
    split; [|split; [reflexivity|exact Ht1]].
    unfold rpcs at 1. cbn [trace]. rewrite filter_app.
    fold (rpcs w1). rewrite (Hw1 ""). rewrite <- app_assoc. reflexivity.
  - destruct (exn_eqb e RemoteError); intros [= <- <-];
      exists 3%nat, filename, (ComputeNode.cpu_info onode);
      (split; [|split; [discriminate|exact Ht1]]);
      unfold rpcs at 1; cbn [trace]; rewrite ?filter_app;
      fold (rpcs w1); rewrite (Hw1 ""); rewrite <- ?app_assoc;
      cbn [filter is_rpc]; rewrite ?app_nil_r; reflexivity.
Qed.

(** X15: the footprint of a call.  Whatever the repository and the agents
    answer, a call for a known workload sends a prefix of three messages, in
    this order: [mktmpfile] to the destination, [confirm_tmpfile] to the
    workload's current host, [compare_cpu] to the destination; it sends to no
    other queue and never sends a message twice.  A call that returns has
    sent all three.  The clock is read at most three times. *)
Theorem call_sends_a_prefix_of_three_messages
        (FLAGS : Flags) (env : Collaborators) (instance_id : Z)
        (dest : string) (instance_ref : Instance.t) (w : World) :
  instance_get env instance_id = OK instance_ref ->
  let dst_t := queue_get_for env (compute_topic FLAGS) dest in
  let src_t := queue_get_for env (compute_topic FLAGS)
                             (Instance.host instance_ref) in
  let run := schedule_live_migration FLAGS env instance_id dest w in
  exists (n : nat) (filename cpu : string),
    rpcs (snd run)
    = rpcs w ++ firstn n (pipeline_messages dst_t src_t filename cpu)
    /\ (forall src, fst run = OK src -> n = 3%nat)
    /\ (ticks w <= ticks (snd run) <= 3 + ticks w)%nat.
Proof.
  intros Hget. cbv zeta.
  rewrite (schedule_live_migration_run _ _ _ _ _ _ Hget).
  destruct (local_reads_src_check FLAGS env instance_ref w)
    as (Htr1 & Hlo1 & Hhi1).
  destruct (_live_migration_src_check FLAGS env instance_ref w)
    as [[[]|e] w1]; cbn [snd] in Htr1, Hlo1, Hhi1.
  2:{ exists 0%nat, "", "". cbn [snd fst firstn]. rewrite app_nil_r.
      unfold rpcs. rewrite Htr1.
      split; [reflexivity|]. split; [discriminate|lia]. }
  destruct (local_reads_dest_check FLAGS env instance_ref dest w1)
    as (Htr2 & Hlo2 & Hhi2).
  destruct (_live_migration_dest_check FLAGS env instance_ref dest w1)
    as [[[]|e] w2]; cbn [snd] in Htr2, Hlo2, Hhi2.
  2:{ exists 0%nat, "", "". cbn [snd fst firstn]. rewrite app_nil_r.
      unfold rpcs. rewrite Htr2, Htr1.
      split; [reflexivity|]. split; [discriminate|lia]. }
  assert (Hrpcs : rpcs w2 = rpcs w) by (unfold rpcs; congruence).
  destruct (_live_migration_common_check FLAGS env instance_ref dest w2)
    as [r w3] eqn:Hcom.
  destruct (common_check_messages _ _ _ _ _ _ _ Hcom)
    as (n & filename & cpu & Hsent & Hall & Ht3).
  exists n, filename, cpu.
  destruct r as [[]|e]; cbn [snd fst].
  - split; [|split; [intros _ _; apply Hall; reflexivity|cbn [ticks]; lia]].
    unfold rpcs at 1. cbn [trace]. rewrite filter_app.
    rewrite rpcs_transition_events, app_nil_r.
    fold (rpcs w3). rewrite Hsent, Hrpcs. reflexivity.
  - split; [rewrite Hsent, Hrpcs; reflexivity|].
    split; [discriminate|lia].
Qed.

Lemma call_sends_a_prefix_of_three_messages_witness :
  exists (n : nat) (filename cpu : string),
    rpcs (snd (schedule_live_migration Scenario.FLAGS Scenario.calm 7 "B"
                                       Scenario.w0))
    = rpcs Scenario.w0
      ++ firstn n (pipeline_messages "compute.B" "compute.A" filename cpu)
    /\ (forall src,
           fst (schedule_live_migration Scenario.FLAGS Scenario.calm 7 "B"
                                        Scenario.w0)
           = OK src ->
           n = 3%nat)
    /\ (ticks Scenario.w0
        <= ticks (snd (schedule_live_migration Scenario.FLAGS Scenario.calm
                                               7 "B" Scenario.w0))
        <= 3 + ticks Scenario.w0)%nat.
Proof.
  apply (call_sends_a_prefix_of_three_messages
           Scenario.FLAGS Scenario.calm 7 "B" Scenario.W Scenario.w0).
  reflexivity.
Defined.

(** X16: a call that returns has written the whole transition.  It has
    returned the current host of the workload the repository holds under the
    given id, and its writes are, in this order and after everything else it
    did, the instance set to [PAUSED] / "migrating" and then one update per
    attached volume, in the order of attachment, setting its status to
    "migrating": one write more than the workload has volumes. *)
Theorem returned_call_wrote_the_transition
        (FLAGS : Flags) (env : Collaborators) (instance_id : Z)
        (dest src : string) (w w' : World) :
  schedule_live_migration FLAGS env instance_id dest w = (OK src, w') ->
  exists (instance_ref : Instance.t) (before : World),
    instance_get env instance_id = OK instance_ref
    /\ src = Instance.host instance_ref
    /\ writes before = writes w
    /\ trace w'
       = trace before
         ++ InstanceSetState instance_id power_state.PAUSED "migrating"
            :: map (fun v => VolumeUpdate (Volume.id v)
                                          [("status", "migrating")])
                   (Instance.volumes instance_ref)
    /\ List.length (writes w')
       = (List.length (writes w)
          + 1 + List.length (Instance.volumes instance_ref))%nat.
Proof.
  destruct (instance_get env instance_id) as [instance_ref|e] eqn:Hget.
  2:{ unfold schedule_live_migration, db_instance_get, bind, lift.
      rewrite Hget. discriminate. }
  rewrite (schedule_live_migration_run _ _ _ _ _ _ Hget).
  pose proof (quiet_src_check FLAGS env instance_ref) as Qsrc.
  pose proof (quiet_dest_check FLAGS env instance_ref dest) as Qdst.
  pose proof (quiet_common_check FLAGS env instance_ref dest) as Qcom.
  destruct (_live_migration_src_check _ _ _ _) as [[[]|e] w1] eqn:Hsrc;
    [|discriminate].
  destruct (_live_migration_dest_check _ _ _ _ _) as [[[]|e] w2] eqn:Hdst;
    [|discriminate].
  destruct (_live_migration_common_check _ _ _ _ _) as [[[]|e] w3] eqn:Hcom;
    [|discriminate].
  intros [= <- <-].
  assert (Hsame : writes w3 = writes w).
  { rewrite (quiet_run _ _ _ _ Qcom Hcom), (quiet_run _ _ _ _ Qdst Hdst).
    exact (quiet_run _ _ _ _ Qsrc Hsrc). }
  exists instance_ref, w3.
  split; [reflexivity|]. split; [reflexivity|]. split; [exact Hsame|].
  split; [reflexivity|].
  unfold writes at 1. cbn [trace]. rewrite filter_app.
  rewrite writes_transition_events. fold (writes w3). rewrite Hsame.
  rewrite length_app. unfold transition_events. cbn [List.length].
  rewrite length_map. lia.
Qed.

Lemma returned_call_wrote_the_transition_witness :
  let env := Scenario.fleet Scenario.W_two_volumes
                            [Scenario.serviceV; Scenario.serviceA;
                             Scenario.serviceB]
                            Scenario.agents_ok in
  let w' := extend (later 3 Scenario.w0)
                   (pipeline_messages "compute.B" "compute.A"
                                      Scenario.probe_file "cpu-A"
                    ++ transition_events 7 Scenario.W_two_volumes) in
  exists (instance_ref : Instance.t) (before : World),
    instance_get env 7 = OK instance_ref
    /\ "A" = Instance.host instance_ref
    /\ writes before = writes Scenario.w0
    /\ trace w'
       = trace before
         ++ InstanceSetState 7 power_state.PAUSED "migrating"
            :: map (fun v => VolumeUpdate (Volume.id v)
                                          [("status", "migrating")])
                   (Instance.volumes instance_ref)
    /\ List.length (writes w')
       = (List.length (writes Scenario.w0)
          + 1 + List.length (Instance.volumes instance_ref))%nat.
Proof.
  cbv zeta.
  apply (returned_call_wrote_the_transition
           Scenario.FLAGS
           (Scenario.fleet Scenario.W_two_volumes
                           [Scenario.serviceV; Scenario.serviceA;
                            Scenario.serviceB]
                           Scenario.agents_ok)
           7 "B" "A" Scenario.w0
           (extend (later 3 Scenario.w0)
                   (pipeline_messages "compute.B" "compute.A"
                                      Scenario.probe_file "cpu-A"
                    ++ transition_events 7 Scenario.W_two_volumes))).
  vm_compute. reflexivity.
Defined.

(** ** When a call returns *)

Lemma not_running_false_inv (instance_ref : Instance.t) :
  not_running instance_ref = false ->
  Instance.state instance_ref = power_state.RUNNING
  /\ Instance.state_description instance_ref = "running".
Proof.
  unfold not_running. intros H. apply orb_false_elim in H.
  destruct H as (Hstate & Hdescr).
  apply negb_false_iff in Hstate, Hdescr.
  apply power_state_eqb_eq in Hstate. apply String.eqb_eq in Hdescr.
  split; congruence.
Qed.

Lemma src_check_OK_running FLAGS env instance_ref w w1 :
  _live_migration_src_check FLAGS env instance_ref w = (OK tt, w1) ->
  not_running instance_ref = false.
Proof.
  unfold _live_migration_src_check, not_running. unfold bind at 1.
  destruct (_ || _); [discriminate|reflexivity].
Qed.

Lemma dest_check_OK_inv FLAGS env instance_ref dest w w1 :
  _live_migration_dest_check FLAGS env instance_ref dest w = (OK tt, w1) ->
  exists first others node nodes,
    service_get_all_compute_by_host env dest = OK (first :: others)
    /\ Service.compute_service first = node :: nodes
    /\ up_at FLAGS (clock env (ticks w)) first = true
    /\ dest <> Instance.host instance_ref
    /\ Instance.memory_mb instance_ref
       < ComputeNode.memory_mb node - ComputeNode.memory_mb_used node
    /\ w1 = later 1 w.
Proof.
  destruct (service_get_all_compute_by_host env dest)
    as [[|first others]|e] eqn:Hdest.
  - unfold _live_migration_dest_check, db_service_get_all_compute_by_host,
      bind, lift, item0, raise. rewrite Hdest. discriminate.
  - rewrite (dest_check_run _ _ _ _ _ _ _ Hdest).
    destruct (up_at FLAGS (clock env (ticks w)) first) eqn:Hup;
      cbn [negb]; [|discriminate].
    destruct (String.eqb_spec dest (Instance.host instance_ref));
      [discriminate|].
    destruct (Service.compute_service first) as [|node nodes] eqn:Hnode.
    + rewrite (proj2 (has_enough_resources_empty_run
                        env instance_ref dest (later 1 w))
                     first others Hdest Hnode).
      discriminate.
    + rewrite (has_enough_resources_run _ instance_ref _ _ _ _ _ (later 1 w)
                                        Hdest Hnode).
      destruct (Z.leb_spec
                  (ComputeNode.memory_mb node
                   - ComputeNode.memory_mb_used node)
                  (Instance.memory_mb instance_ref)); [discriminate|].
      intros [= <-]. exists first, others, node, nodes.
      repeat split; try assumption; reflexivity.
  - unfold _live_migration_dest_check, db_service_get_all_compute_by_host,
      bind, lift. rewrite Hdest. discriminate.
Qed.

Lemma common_check_OK_inv FLAGS env instance_ref dest w w1 :
  _live_migration_common_check FLAGS env instance_ref dest w = (OK tt, w1) ->
  exists dfirst drest dnode dnodes ofirst orest onode onodes,
    service_get_all_compute_by_host env dest = OK (dfirst :: drest)
    /\ Service.compute_service dfirst = dnode :: dnodes
    /\ service_get_all_compute_by_host
         env (Instance.launched_on instance_ref)
       = OK (ofirst :: orest)
    /\ Service.compute_service ofirst = onode :: onodes
    /\ ComputeNode.hypervisor_type onode = ComputeNode.hypervisor_type dnode
    /\ ComputeNode.hypervisor_version onode
       <= ComputeNode.hypervisor_version dnode.
Proof.
  unfold _live_migration_common_check. unfold bind at 1.
  destruct (mounted_on_same_shared_storage _ _ _ _ _) as [[[]|e] w2];
    [|discriminate].
  unfold db_service_get_all_compute_by_host, try_except, rpc_call,
    logging_exception, emit, lift, bind, item0, ret, raise.
  destruct (service_get_all_compute_by_host env dest)
    as [[|dfirst drest]|e] eqn:Hdest; try discriminate.
  destruct (Service.compute_service dfirst) as [|dnode dnodes] eqn:Hdnode;
    try discriminate.
  destruct (service_get_all_compute_by_host
              env (Instance.launched_on instance_ref))
    as [[|ofirst orest]|e] eqn:Horig;
    try discriminate.
  2:{ destruct (exn_eqb e NotFound); discriminate. }
  destruct (Service.compute_service ofirst) as [|onode onodes] eqn:Honode;
    try discriminate.
  destruct (String.eqb_spec (ComputeNode.hypervisor_type onode)
                            (ComputeNode.hypervisor_type dnode));
    cbn [negb]; [|discriminate].
  rewrite Z.gtb_ltb.
  destruct (Z.ltb_spec (ComputeNode.hypervisor_version dnode)
                       (ComputeNode.hypervisor_version onode));
    [discriminate|].
  intros _.
  exists dfirst, drest, dnode, dnodes, ofirst, orest, onode, onodes.
  repeat split; try reflexivity; assumption.
Qed.

(** X17: the driver approves nothing it should refuse.  If a call returns,
    then the workload was [RUNNING] / "running"; the destination is not its
    current host; the destination's first compute record was up at one of
    the clock readings the call made, and its free memory exceeds the
    workload's memory; and the first compute record of the host the
    workload was launched on has the destination's hypervisor type and a
    version not above the destination's. *)
Theorem returned_call_passed_every_check
        (FLAGS : Flags) (env : Collaborators) (instance_id : Z)
        (dest src : string) (w w' : World) :
  schedule_live_migration FLAGS env instance_id dest w = (OK src, w') ->
  exists instance_ref dfirst drest dnode dnodes ofirst orest onode onodes
         reading,
    instance_get env instance_id = OK instance_ref
    /\ Instance.state instance_ref = power_state.RUNNING
    /\ Instance.state_description instance_ref = "running"
    /\ dest <> Instance.host instance_ref
    /\ service_get_all_compute_by_host env dest = OK (dfirst :: drest)
    /\ Service.compute_service dfirst = dnode :: dnodes
    /\ (ticks w <= reading < ticks w')%nat
    /\ up_at FLAGS (clock env reading) dfirst = true
    /\ Instance.memory_mb instance_ref
       < ComputeNode.memory_mb dnode - ComputeNode.memory_mb_used dnode
    /\ service_get_all_compute_by_host
         env (Instance.launched_on instance_ref)
       = OK (ofirst :: orest)
    /\ Service.compute_service ofirst = onode :: onodes
    /\ ComputeNode.hypervisor_type onode = ComputeNode.hypervisor_type dnode
    /\ ComputeNode.hypervisor_version onode
       <= ComputeNode.hypervisor_version dnode.
Proof.
  destruct (instance_get env instance_id) as [instance_ref|e] eqn:Hget.
  2:{ unfold schedule_live_migration, db_instance_get, bind, lift.
      rewrite Hget. discriminate. }
  rewrite (schedule_live_migration_run _ _ _ _ _ _ Hget).
  destruct (local_reads_src_check FLAGS env instance_ref w)
    as (_ & Hlo & _).
  destruct (_live_migration_src_check _ _ _ _) as [[[]|e] w1] eqn:Hsrc;
    [|discriminate].
  cbn [snd] in Hlo.
  destruct (_live_migration_dest_check _ _ _ _ _) as [[[]|e] w2] eqn:Hdst;
    [|discriminate].
  destruct (_live_migration_common_check _ _ _ _ _) as [[[]|e] w3] eqn:Hcom;
    [|discriminate].
  intros [= _ <-].
  destruct (not_running_false_inv _ (src_check_OK_running _ _ _ _ _ Hsrc))
    as (Hstate & Hdescr).
  destruct (dest_check_OK_inv _ _ _ _ _ _ Hdst)
    as (first & others & node & nodes & Hdest & Hnode & Hup & Hother & Hroom
        & Hw2).
  destruct (common_check_OK_inv _ _ _ _ _ _ Hcom)
    as (dfirst & drest & dnode & dnodes & ofirst & orest & onode & onodes
        & Hdest' & Hdnode & Horig & Honode & Htype & Hversion).
  destruct (common_check_messages _ _ _ _ _ _ _ Hcom)
    as (_ & _ & _ & _ & _ & Hticks).
  rewrite Hdest in Hdest'. injection Hdest' as <- <-.
  rewrite Hnode in Hdnode. injection Hdnode as <- <-.
  exists instance_ref, first, others, node, nodes, ofirst, orest, onode,
         onodes, (ticks w1).
  repeat split; try assumption.
  cbn [ticks]. rewrite Hticks, Hw2. cbn [later ticks]. lia.
Qed.

Lemma returned_call_passed_every_check_witness :
  let w' := extend (later 2 Scenario.w0)
                   (pipeline_messages "compute.B" "compute.A"
                                      Scenario.probe_file "cpu-A"
                    ++ transition_events 7 Scenario.W) in
  exists instance_ref dfirst drest dnode dnodes ofirst orest onode onodes
         reading,
    instance_get Scenario.calm 7 = OK instance_ref
    /\ Instance.state instance_ref = power_state.RUNNING
    /\ Instance.state_description instance_ref = "running"
    /\ "B" <> Instance.host instance_ref
    /\ service_get_all_compute_by_host Scenario.calm "B"
       = OK (dfirst :: drest)
    /\ Service.compute_service dfirst = dnode :: dnodes
    /\ (ticks Scenario.w0 <= reading < ticks w')%nat
    /\ up_at Scenario.FLAGS (clock Scenario.calm reading) dfirst = true
    /\ Instance.memory_mb instance_ref
       < ComputeNode.memory_mb dnode - ComputeNode.memory_mb_used dnode
    /\ service_get_all_compute_by_host
         Scenario.calm (Instance.launched_on instance_ref)
       = OK (ofirst :: orest)
    /\ Service.compute_service ofirst = onode :: onodes
    /\ ComputeNode.hypervisor_type onode = ComputeNode.hypervisor_type dnode
    /\ ComputeNode.hypervisor_version onode
       <= ComputeNode.hypervisor_version dnode.
Proof.
  cbv zeta.
  apply (returned_call_passed_every_check
           Scenario.FLAGS Scenario.calm 7 "B" "A" Scenario.w0
           (extend (later 2 Scenario.w0)
                   (pipeline_messages "compute.B" "compute.A"
                                      Scenario.probe_file "cpu-A"
                    ++ transition_events 7 Scenario.W))).
  vm_compute. reflexivity.
Defined.




(** ** Remaining error paths *)

(** X19: when the destination agent raises on [compare_cpu], the common
    check raises the same error, whatever its class, right after that
    message; it logs one exception line naming the destination and the
    workload's current host when the class is [RemoteError], and nothing
    otherwise. *)
Theorem common_check_reraises_compare_cpu_error
        (FLAGS : Flags) (env : Collaborators) (instance_ref : Instance.t)
        (dest : string) (w w1 : World)
        (dfirst : Service.t) (drest : list Service.t)
        (dnode : ComputeNode.t) (dnodes : list ComputeNode.t)
        (ofirst : Service.t) (orest : list Service.t)
        (onode : ComputeNode.t) (onodes : list ComputeNode.t) (e : exn) :
  let dst_t := queue_get_for env (compute_topic FLAGS) dest in
  let msg := compare_cpu_msg (ComputeNode.cpu_info onode) in
  mounted_on_same_shared_storage FLAGS env instance_ref dest w
  = (OK tt, w1) ->
  service_get_all_compute_by_host env dest = OK (dfirst :: drest) ->
  Service.compute_service dfirst = dnode :: dnodes ->
  service_get_all_compute_by_host env (Instance.launched_on instance_ref)
  = OK (ofirst :: orest) ->
  Service.compute_service ofirst = onode :: onodes ->
  ComputeNode.hypervisor_type onode = ComputeNode.hypervisor_type dnode ->
  ComputeNode.hypervisor_version onode
  <= ComputeNode.hypervisor_version dnode ->
  rpc_reply env dst_t msg = Raise e ->
  _live_migration_common_check FLAGS env instance_ref dest w
  = (Raise e,
     extend w1
            (RpcCall dst_t msg
             :: if exn_eqb e RemoteError
                then [LogException
                        ("host " ++ dest
                         ++ " is not compatible with original host "
                         ++ Instance.host instance_ref ++ ".")]
                else [])).
Proof.
  cbv zeta. unfold compare_cpu_msg.
  intros Hprobe Hdest Hdnode Horig Honode Htype Hversion Hcpu.
  rewrite (common_check_run _ _ _ _ _ _ _ _ _ _ _ _ _ _
                            Hprobe Hdest Hdnode Horig Honode).
  apply String.eqb_eq in Htype. rewrite Htype. cbn [negb].
  rewrite Z.gtb_ltb.
  destruct (Z.ltb_spec (ComputeNode.hypervisor_version dnode)
                       (ComputeNode.hypervisor_version onode)); [lia|].
  cbv zeta. rewrite Hcpu. unfold extend. cbn [ticks trace].
  destruct e; cbn [exn_eqb]; rewrite <- ?app_assoc; reflexivity.
Qed.

Lemma common_check_reraises_compare_cpu_error_witness :
  _live_migration_common_check
    Scenario.FLAGS
    (Scenario.fleet Scenario.W [Scenario.serviceA; Scenario.serviceB]
                    Scenario.cpu_rejected)
    Scenario.W "B" Scenario.w0
  = (Raise RemoteError,
     extend (extend Scenario.w0
                    [RpcCall "compute.B" mktmpfile_msg;
                     RpcCall "compute.A"
                             (confirm_tmpfile_msg Scenario.probe_file)])
            [RpcCall "compute.B" (compare_cpu_msg "cpu-A");
             LogException
               "host B is not compatible with original host A."]).
Proof.
  apply (common_check_reraises_compare_cpu_error
           Scenario.FLAGS
           (Scenario.fleet Scenario.W [Scenario.serviceA; Scenario.serviceB]
                           Scenario.cpu_rejected)
           Scenario.W "B" Scenario.w0 _
           Scenario.serviceB [] Scenario.nodeB []
           Scenario.serviceA [] Scenario.nodeA [] RemoteError);
    reflexivity.
Defined.


